(** * The microsimulation facade of openfisca-uk / policyengine-uk

    A shallow embedding of
    - [Microsimulation.map_to], [Microsimulation.calc],
      [Microsimulation.load_dataset] and the same-entity branch of
      [Microsimulation.deriv] (src/openfisca_uk/microdata/simulation.py),
    - [would_claim_PC.formula]
      (src/openfisca_uk/variables/government/dwp/pension_credit.py),
    - [bi_household_phaseout.formula]
      (src/policyengine_uk/variables/contrib/ubi_center/basic_income/bi_phaseout.py).

    Python exceptions are values of [Py.exn]; calls into the evaluation
    engine, warnings and inputs are recorded in a log, so that the order of
    the attempts made by [calc] is part of its result.  Finite
    floating-point values are modelled by exact rationals (the rounding
    error of the arithmetic is abstracted, except in [arr.round(2)], where
    the float32 operations are rounded as numpy rounds them), extended with
    the two infinities and NaN that numpy produces on a division by zero;
    signed zeros are not distinguished. *)

From Stdlib Require Import ZArith QArith Qabs Qround Qminmax Lia Lqa DecimalString.
From stdpp Require Import base tactics option list strings gmap.

Set Warnings "-register-all".

Local Open Scope string_scope.
Local Open Scope list_scope.

(** ** Python: exceptions, a log of effects, and the monad threading both *)

Module Py.

Inductive exn : Type :=
| KeyError (key : string)
| AttributeError (attr : string)
| ValueError (msg : string)
| TypeError (msg : string)
| IndexError (msg : string)
| UnboundLocalError (name : string)
| RecursionError
| EngineError (msg : string).

Inductive period : Type :=
| PInt (y : Z)
| PStr (s : string).

(** What the facade does to the outside world: requests to the evaluation
    engine, inputs written into it, and warnings. *)
Inductive event : Type :=
| EvCalculate (var : string) (p : period)
| EvCalculateAdd (var : string) (p : period)
| EvCalculateDivide (var : string) (p : period)
| EvSetInput (var : string) (p : string)
| EvWarn (msg : string).

Inductive res (A : Type) : Type :=
| Raise (e : exn)
| Ret (a : A).

Arguments Raise {A} e.
Arguments Ret {A} a.

Definition M (A : Type) : Type := (list event * res A)%type.

Definition ret {A} (a : A) : M A := ([], Ret a).

Definition raise {A} (e : exn) : M A := ([], Raise e).

Definition emit (ev : event) : M unit := ([ev], Ret tt).

Definition bind {A B} (m : M A) (k : A -> M B) : M B :=
  match m with
  | (l, Raise e) => (l, Raise e)
  | (l, Ret a) => let '(l', r) := k a in (l ++ l', r)
  end.

(** [try: m except e: h e] (every modelled exception is an [Exception], so
    [except Exception as e] and a bare [except] catch the same values). *)
Definition try_except {A} (m : M A) (h : exn -> M A) : M A :=
  match m with
  | (l, Raise e) => let '(l', r) := h e in (l ++ l', r)
  | (l, Ret a) => (l, Ret a)
  end.

(** Lifting the pure result of a library call. *)
Definition lift {A} (r : res A) : M A := ([], r).

(** Reading a local variable that an earlier statement may have left unbound. *)
Definition local {A} (name : string) (v : option A) : M A :=
  match v with
  | Some a => ret a
  | None => raise (UnboundLocalError name)
  end.

(** Truthiness of an optional string argument ([None] and the empty string are falsy). *)
Definition truthy (s : option string) : bool :=
  match s with
  | None => false
  | Some s => negb (String.eqb s EmptyString)
  end.

Definition log {A} (m : M A) : list event := fst m.

Definition outcome {A} (m : M A) : res A := snd m.

End Py.

Import Py.

Notation "'do' x <- m ; k" := (Py.bind m (fun x => k))
  (at level 10, x name, m at level 100, k at level 200, only parsing).

(** ** Floating-point values *)

Module Float64.

Inductive t : Type :=
| Fin (q : Q)
| PInf
| NInf
| NaN.

Definition of_Z (z : Z) : t := Fin (inject_Z z).

Definition of_bool (b : bool) : t := if b then Fin 1 else Fin 0.

Definition is_finite (x : t) : bool :=
  match x with Fin _ => true | _ => false end.

Definition finite (x : t) : Prop := is_finite x = true.

Definition opp (x : t) : t :=
  match x with
  | Fin q => Fin (Qred (- q))
  | PInf => NInf
  | NInf => PInf
  | NaN => NaN
  end.

Definition add (x y : t) : t :=
  match x, y with
  | NaN, _ | _, NaN => NaN
  | Fin a, Fin b => Fin (Qred (a + b))
  | PInf, NInf | NInf, PInf => NaN
  | PInf, _ | _, PInf => PInf
  | NInf, _ | _, NInf => NInf
  end.

Definition sub (x y : t) : t := add x (opp y).

(** An infinity of sign [pos] times (or divided by) a finite [q]. *)
Definition inf_signed (pos : bool) (c : comparison) : t :=
  match c with
  | Eq => NaN
  | Gt => if pos then PInf else NInf
  | Lt => if pos then NInf else PInf
  end.

Definition mul (x y : t) : t :=
  match x, y with
  | NaN, _ | _, NaN => NaN
  | Fin a, Fin b => Fin (Qred (a * b))
  | PInf, Fin q | Fin q, PInf => inf_signed true (q ?= 0)%Q
  | NInf, Fin q | Fin q, NInf => inf_signed false (q ?= 0)%Q
  | PInf, PInf | NInf, NInf => PInf
  | PInf, NInf | NInf, PInf => NInf
  end.

(** numpy's true division: a finite value over zero is an infinity, zero
    over zero is NaN; nothing is raised. *)
Definition div (x y : t) : t :=
  match x, y with
  | NaN, _ | _, NaN => NaN
  | Fin a, Fin b =>
      match (b ?= 0)%Q with
      | Eq => inf_signed true (a ?= 0)%Q
      | _ => Fin (Qred (a / b))
      end
  | Fin _, _ => Fin 0
  | PInf, Fin q => match (q ?= 0)%Q with Lt => NInf | _ => PInf end
  | NInf, Fin q => match (q ?= 0)%Q with Lt => PInf | _ => NInf end
  | _, _ => NaN
  end.

Definition ltb (x y : t) : bool :=
  match x, y with
  | NaN, _ | _, NaN => false
  | Fin a, Fin b => match (a ?= b)%Q with Lt => true | _ => false end
  | _, NInf => false
  | NInf, _ => true
  | PInf, _ => false
  | _, PInf => true
  end.

Definition gtb (x y : t) : bool := ltb y x.

Definition leb (x y : t) : bool :=
  match x, y with
  | NaN, _ | _, NaN => false
  | Fin a, Fin b => match (a ?= b)%Q with Gt => false | _ => true end
  | NInf, _ => true
  | _, PInf => true
  | _, _ => false
  end.

Definition geb (x y : t) : bool := leb y x.

(** [np.minimum] and [np.maximum] propagate NaN. *)
Definition minimum (x y : t) : t :=
  match x, y with
  | NaN, _ | _, NaN => NaN
  | _, _ => if leb x y then x else y
  end.

Definition maximum (x y : t) : t :=
  match x, y with
  | NaN, _ | _, NaN => NaN
  | _, _ => if leb x y then y else x
  end.

(** [np.rint]: to the nearest integer, ties to even. *)
Definition rint (q : Q) : Z :=
  let f := Qfloor q in
  match (q - inject_Z f ?= 1 # 2)%Q with
  | Lt => f
  | Gt => (f + 1)%Z
  | Eq => if Z.even f then f else (f + 1)%Z
  end.

(** The one place where the facade itself rounds is [arr.round(2)], and
    there the rounding of the floating-point operations decides the cent:
    the format is made explicit.  openfisca_core holds the variables whose
    [value_type] is [float] in float32 arrays, and [calc] rounds those
    variables only. *)

(** [2 ** e] *)
Definition pow2 (e : Z) : Q :=
  match e with
  | Z0 => 1
  | Zpos n => inject_Z (2 ^ Zpos n)
  | Zneg n => 1 # (2 ^ n)
  end.

(** The exponent of the binade of a positive number: the [e] with
    [2 ** e <= q < 2 ** (e + 1)]. *)
Definition ilog2 (q : Q) : Z :=
  let e := (Z.log2 (Qnum q) - Z.log2 (Zpos (Qden q)))%Z in
  if Qle_bool (pow2 e) q then e else (e - 1)%Z.

(** Rounding to the nearest number with [prec] significant bits and an
    exponent of at least [emin], ties to the even significand. *)
Definition round_to (prec emin : Z) (q : Q) : Q :=
  if Qeq_bool q 0 then 0
  else
    let e := Z.max (ilog2 (Qabs q)) emin in
    let ulp := pow2 (e - prec + 1) in
    Qred (inject_Z (rint (q / ulp)) * ulp).

(** The float32 nearest to a real number: 24 significant bits, exponents
    from -126 to 127, and an infinity beyond the largest finite value. *)
Definition float32 (q : Q) : t :=
  let r := round_to 24 (-126) q in
  if Qle_bool (pow2 128) (Qabs r)
  then (if Qle_bool 0 q then PInf else NInf)
  else Fin r.

(** [x.round(2)] on a float32 array, which numpy computes as
    [rint(x * 100) / 100] with the product and the quotient taken in the
    format of the array. *)
Definition round2 (x : t) : t :=
  match x with
  | Fin q =>
      match float32 (q * 100) with
      | Fin scaled => float32 (inject_Z (rint scaled) / 100)
      | overflow => overflow
      end
  | _ => x
  end.


End Float64.

(** ** numpy arrays *)

Module Numpy.

Inductive ndarray : Type :=
| FloatArray (xs : list Float64.t)
| IntArray (zs : list Z)
| BoolArray (bs : list bool)
| StrArray (ss : list string)
| EnumArray (names : list string) (idx : list nat).

Definition size (a : ndarray) : nat :=
  match a with
  | FloatArray xs => length xs
  | IntArray zs => length zs
  | BoolArray bs => length bs
  | StrArray ss => length ss
  | EnumArray _ idx => length idx
  end.

(** The numeric view of an array: ints and bools promote to floats. *)
Definition as_float (a : ndarray) : res (list Float64.t) :=
  match a with
  | FloatArray xs => Ret xs
  | IntArray zs => Ret (map Float64.of_Z zs)
  | BoolArray bs => Ret (map Float64.of_bool bs)
  | StrArray _ | EnumArray _ _ => Raise (TypeError "unsupported operand type")
  end.

(** Elementwise binary operation with numpy's broadcasting of a length-one
    operand. *)
Definition broadcast2 {A B C} (f : A -> B -> C) (xs : list A) (ys : list B)
  : res (list C) :=
  if Nat.eqb (length xs) (length ys) then Ret (zip_with f xs ys)
  else
    match xs, ys with
    | [x], _ => Ret (map (f x) ys)
    | _, [y] => Ret (map (fun x => f x y) xs)
    | _, _ => Raise (ValueError "operands could not be broadcast together")
    end.

Definition lift2 (f : Float64.t -> Float64.t -> Float64.t) (a b : ndarray)
  : res ndarray :=
  match as_float a, as_float b with
  | Ret xs, Ret ys =>
      match broadcast2 f xs ys with
      | Ret zs => Ret (FloatArray zs)
      | Raise e => Raise e
      end
  | Raise e, _ | _, Raise e => Raise e
  end.

(** [a / b] *)
Definition true_divide : ndarray -> ndarray -> res ndarray := lift2 Float64.div.

(** [a - b] *)
Definition subtract : ndarray -> ndarray -> res ndarray := lift2 Float64.sub.

(** [a * b], [np.maximum(a, b)] (openfisca's [max_]) and [np.minimum(a, b)]
    (its [min_]) *)
Definition multiply : ndarray -> ndarray -> res ndarray := lift2 Float64.mul.

Definition np_maximum : ndarray -> ndarray -> res ndarray := lift2 Float64.maximum.

Definition np_minimum : ndarray -> ndarray -> res ndarray := lift2 Float64.minimum.

(** A Python scalar as an operand: it broadcasts against any array. *)
Definition scalar (c : Float64.t) : ndarray := FloatArray [c].

Definition as_bool (a : ndarray) : res (list bool) :=
  match a with
  | BoolArray bs => Ret bs
  | _ => Raise (TypeError "boolean array expected")
  end.

Definition compare_arrays (f : Float64.t -> Float64.t -> bool) (a b : ndarray)
  : res ndarray :=
  match as_float a, as_float b with
  | Ret xs, Ret ys =>
      match broadcast2 f xs ys with
      | Ret zs => Ret (BoolArray zs)
      | Raise e => Raise e
      end
  | Raise e, _ | _, Raise e => Raise e
  end.

(** [a > b] and [a < b] *)
Definition greater : ndarray -> ndarray -> res ndarray := compare_arrays Float64.gtb.

Definition less : ndarray -> ndarray -> res ndarray := compare_arrays Float64.ltb.

(** [a | b] on boolean operands. *)
Definition bitwise_or (a b : ndarray) : res ndarray :=
  match as_bool a, as_bool b with
  | Ret xs, Ret ys =>
      match broadcast2 orb xs ys with
      | Ret zs => Ret (BoolArray zs)
      | Raise e => Raise e
      end
  | Raise e, _ | _, Raise e => Raise e
  end.

(** [np.where(c, a, b)]: both branches are complete arrays, computed before
    the selection. *)
Definition where_ (c a b : ndarray) : res ndarray :=
  match as_bool c, as_float a, as_float b with
  | Ret cs, Ret xs, Ret ys =>
      match broadcast2 (fun (k : bool) (x : Float64.t) => (k, x)) cs xs with
      | Ret cx =>
          match broadcast2 (fun (p : bool * Float64.t) (y : Float64.t) =>
                              if fst p then snd p else y) cx ys with
          | Ret zs => Ret (FloatArray zs)
          | Raise e => Raise e
          end
      | Raise e => Raise e
      end
  | Raise e, _, _ | _, Raise e, _ | _, _, Raise e => Raise e
  end.

(** [a >= c] for a scalar [c] *)
Definition ge_scalar (a : ndarray) (c : Z) : res ndarray :=
  match as_float a with
  | Ret xs => Ret (BoolArray (map (fun x => Float64.geb x (Float64.of_Z c)) xs))
  | Raise e => Raise e
  end.

(** [a.round(2)]: floats are rounded, integers are returned as they are. *)
Definition round (a : ndarray) : res ndarray :=
  match a with
  | FloatArray xs => Ret (FloatArray (map Float64.round2 xs))
  | IntArray zs => Ret (IntArray zs)
  | _ => Raise (TypeError "round is defined on numeric arrays")
  end.

(** [a.astype(float)] *)
Definition astype_float (a : ndarray) : res ndarray :=
  match as_float a with
  | Ret xs => Ret (FloatArray xs)
  | Raise e => Raise e
  end.

(** [a.decode_to_str()], a method of openfisca's [EnumArray] only. *)
Definition decode_to_str (a : ndarray) : res ndarray :=
  match a with
  | EnumArray names idx => Ret (StrArray (map (fun i => nth i names EmptyString) idx))
  | _ => Raise (AttributeError "decode_to_str")
  end.

(** [xs[ids]] on one list of elements. *)
Fixpoint take_list {A} (xs : list A) (ids : list nat) : res (list A) :=
  match ids with
  | [] => Ret []
  | i :: ids' =>
      match xs !! i, take_list xs ids' with
      | Some x, Ret r => Ret (x :: r)
      | None, _ => Raise (IndexError "index out of bounds")
      | _, Raise e => Raise e
      end
  end.

Definition res_map {A B} (f : A -> B) (r : res A) : res B :=
  match r with
  | Ret a => Ret (f a)
  | Raise e => Raise e
  end.

(** [a[ids]] *)
Definition take (a : ndarray) (ids : list nat) : res ndarray :=
  match a with
  | FloatArray xs => res_map FloatArray (take_list xs ids)
  | IntArray zs => res_map IntArray (take_list zs ids)
  | BoolArray bs => res_map BoolArray (take_list bs ids)
  | StrArray ss => res_map StrArray (take_list ss ids)
  | EnumArray names idx => res_map (EnumArray names) (take_list idx ids)
  end.

(** The values of [xs] at the positions whose label in [ids] is [g]. *)
Definition group_values {A} (ids : list nat) (xs : list A) (g : nat) : list A :=
  map snd (filter (fun p => Nat.eqb (fst p) g) (combine ids xs)).

(** Number of bins of [np.bincount]: one more than the largest label. *)
Definition nbins (ids : list nat) : nat :=
  match ids with
  | [] => 0
  | _ => S (list_max ids)
  end.

Definition fsum (xs : list Float64.t) : Float64.t :=
  fold_left Float64.add xs (Float64.Fin 0).

(** [np.bincount(ids, weights=w)] *)
Definition bincount_weights (ids : list nat) (w : ndarray) : res ndarray :=
  match as_float w with
  | Ret xs =>
      if Nat.eqb (length xs) (length ids) then
        Ret (FloatArray (map (fun g => fsum (group_values ids xs g))
                             (seq 0 (nbins ids))))
      else Raise (ValueError "weights should have the same shape as x")
  | Raise e => Raise e
  end.

(** [np.bincount(ids)] *)
Definition bincount (ids : list nat) : ndarray :=
  IntArray (map (fun g => Z.of_nat (length (group_values ids ids g)))
                (seq 0 (nbins ids))).

End Numpy.

Import Numpy.

(** ** The evaluation engine (openfisca_core), as the facade sees it

    openfisca_core is an external library: its group-population operators
    are written out from their documented behaviour, and the three
    calculation entry points of a simulation are fields of the simulation
    object. *)

Module Core.

Inductive ValueType : Type := float_t | bool_t | int_t | str_t | Enum_t | date_t.

Global Instance ValueType_eq_dec : EqDecision ValueType.
Proof. solve_decision. Defined.

(** The two attributes of a variable that the facade reads:
    [value_type] and [entity.key]. *)
Record VariableMeta : Type := {
  value_type : ValueType;
  entity_key : string
}.

(** A group population: for every person, the index of the group it belongs
    to, and the number of groups. *)
Record GroupPopulation : Type := {
  count : nat;
  members_entity_id : list nat
}.

Definition check_array (g : GroupPopulation) (a : ndarray) : res unit :=
  if Nat.eqb (size a) (length (members_entity_id g)) then Ret tt
  else Raise (ValueError "input array does not match the person population").

(** [group.sum(array)] *)
Definition gp_sum (g : GroupPopulation) (a : ndarray) : res ndarray :=
  bincount_weights (members_entity_id g) a.

(** [group.any(array)]: the group sum is positive. *)
Definition gp_any (g : GroupPopulation) (a : ndarray) : res ndarray :=
  match gp_sum g a with
  | Ret s => greater s (scalar (Float64.Fin 0))
  | Raise e => Raise e
  end.

(** [group.reduce(array, reducer, neutral_element)] *)
Definition gp_reduce (g : GroupPopulation) (xs : list Float64.t)
  (reducer : Float64.t -> Float64.t -> Float64.t) (neutral : Float64.t)
  : list Float64.t :=
  map (fun i => fold_left reducer (group_values (members_entity_id g) xs i) neutral)
      (seq 0 (count g)).

Definition gp_reduce_float (g : GroupPopulation) (a : ndarray)
  (reducer : Float64.t -> Float64.t -> Float64.t) (neutral : Float64.t)
  : res ndarray :=
  match check_array g a, as_float a with
  | Ret _, Ret xs => Ret (FloatArray (gp_reduce g xs reducer neutral))
  | Raise e, _ | _, Raise e => Raise e
  end.

(** [group.max(array)] and [group.min(array)] *)
Definition gp_max (g : GroupPopulation) (a : ndarray) : res ndarray :=
  gp_reduce_float g a Float64.maximum Float64.NInf.

Definition gp_min (g : GroupPopulation) (a : ndarray) : res ndarray :=
  gp_reduce_float g a Float64.minimum Float64.PInf.

(** [group.all(array)] *)
Definition gp_all (g : GroupPopulation) (a : ndarray) : res ndarray :=
  match check_array g a, as_float a with
  | Ret _, Ret xs =>
      Ret (BoolArray
             (map (fun i =>
                     forallb (fun x => negb (Float64.leb x (Float64.Fin 0)
                                             && Float64.geb x (Float64.Fin 0)))
                             (group_values (members_entity_id g) xs i))
                  (seq 0 (count g))))
  | Raise e, _ | _, Raise e => Raise e
  end.

(** [group.value_from_first_person(array)] *)
Definition gp_value_from_first_person (g : GroupPopulation) (a : ndarray)
  : res ndarray :=
  match check_array g a, as_float a with
  | Ret _, Ret xs =>
      Ret (FloatArray
             (map (fun i => hd (Float64.Fin 0)
                               (group_values (members_entity_id g) xs i))
                  (seq 0 (count g))))
  | Raise e, _ | _, Raise e => Raise e
  end.

(** [group.project(array)]: the array must have one value per group, and
    every person receives the value of its group. *)
Definition gp_project (g : GroupPopulation) (a : ndarray) : res ndarray :=
  if Nat.eqb (size a) (count g) then take a (members_entity_id g)
  else Raise (ValueError "input array does not match the group population").

(** [group.nb_persons()] *)
Definition gp_nb_persons (g : GroupPopulation) : ndarray :=
  bincount (members_entity_id g).

(** [group.__getattribute__(name)] for the six reduction names that
    [map_to] lets through. *)
Definition gp_getattribute (g : GroupPopulation) (name : string)
  : res (ndarray -> res ndarray) :=
  if String.eqb name "sum" then Ret (gp_sum g)
  else if String.eqb name "any" then Ret (gp_any g)
  else if String.eqb name "min" then Ret (gp_min g)
  else if String.eqb name "max" then Ret (gp_max g)
  else if String.eqb name "all" then Ret (gp_all g)
  else if String.eqb name "value_from_first_person"
       then Ret (gp_value_from_first_person g)
  else Raise (AttributeError name).

(** [simulation.populations]: the builder of [load_dataset] declares exactly
    the person entity and the two group entities. *)
Record Populations : Type := {
  person_count : nat;
  benunit : GroupPopulation;
  household : GroupPopulation
}.

Inductive Population : Type :=
| PersonPopulation (n : nat)
| GroupPop (g : GroupPopulation).

(** [populations[name]] *)
Definition populations_get (p : Populations) (name : string) : res Population :=
  if String.eqb name "person" then Ret (PersonPopulation (person_count p))
  else if String.eqb name "benunit" then Ret (GroupPop (benunit p))
  else if String.eqb name "household" then Ret (GroupPop (household p))
  else Raise (KeyError name).

(** A built simulation.  The engine memoises, so each calculation entry
    point is a function of the request; [set_input] returns the simulation
    with the input stored, or raises and leaves it as it was. *)
Inductive Simulation : Type := {
  variables : gmap string VariableMeta;
  populations : Populations;
  calculate : string -> period -> res ndarray;
  calculate_add : string -> period -> res ndarray;
  calculate_divide : string -> period -> res ndarray;
  set_input : string -> string -> ndarray -> res Simulation
}.

End Core.

Import Core.

(** ** [class Microsimulation] *)

Module Microsim.

Inductive Reform : Type :=
| InputReform (dataset_name : string)
| NamedReform (name : string)
| BonusRef (wrt : string) (delta : Q) (percent : bool)
| ReformGroup (rs : list Reform).

(** The key [(wrt, delta, percent, "same-entity")] of a cached sibling. *)
Definition Config : Type := (string * Q * bool * string)%type.

Definition config_eqb (a b : Config) : bool :=
  let '(w1, d1, p1, m1) := a in
  let '(w2, d2, p2, m2) := b in
  String.eqb w1 w2 && Qeq_bool d1 d2 && Bool.eqb p1 p2 && String.eqb m1 m2.

(** The microdata store: variable name, then period, then the array. *)
Definition Data : Type := list (string * list (string * ndarray)).

Record Dataset : Type := {
  input_reform : Reform;
  load : Z -> Data
}.

Inductive Microsimulation : Type := {
  dataset : option Dataset;
  year : Z;
  reforms : list Reform;
  simulation : Simulation;
  entity_weights : gmap string ndarray;
  bonus_sims : list (Config * Microsimulation)
}.

(** What [calc] returns: the raw array, or a [MicroSeries] of the values
    and the weights of their entity. *)
Inductive CalcResult : Type :=
| RawArray (a : ndarray)
| MicroSeries (values : option ndarray) (weights : ndarray).

Definition str_in (s : string) (l : list string) : bool :=
  existsb (String.eqb s) l.

Definition as_array (v : option ndarray) : res ndarray :=
  match v with
  | Some a => Ret a
  | None => Raise (TypeError "NoneType")
  end.

Definition pop_getattribute (p : Population) (name : string)
  : res (ndarray -> res ndarray) :=
  match p with
  | GroupPop g => gp_getattribute g name
  | PersonPopulation _ => Raise (AttributeError name)
  end.

Definition pop_project (p : Population) (a : ndarray) : res ndarray :=
  match p with
  | GroupPop g => gp_project g a
  | PersonPopulation _ => Raise (AttributeError "project")
  end.

Definition pop_nb_persons (p : Population) : res ndarray :=
  match p with
  | GroupPop g => Ret (gp_nb_persons g)
  | PersonPopulation _ => Raise (AttributeError "nb_persons")
  end.

(** [how or "sum"] *)
Definition how_or_sum (how : option string) : string :=
  match how with
  | Some s => if truthy how then s else "sum"
  | None => "sum"
  end.

Definition how_is (how : option string) (s : string) : bool :=
  match how with
  | Some h => String.eqb h s
  | None => false
  end.

Definition valid_how : list string :=
  ["sum"; "any"; "min"; "max"; "all"; "value_from_first_person"].

(** The interpreter's bound on nested calls. *)
Definition recursion_limit : nat := 1000.

(** [map_to(self, arr, entity, target_entity, how=None)].  A branch that
    falls off the end of the function returns [None]. *)
Fixpoint map_to_rec (depth : nat) (self : Microsimulation)
  (arr : option ndarray) (entity target_entity : string) (how : option string)
  : M (option ndarray) :=
  match depth with
  | O => raise RecursionError
  | S depth' =>
      do entity_pop <- lift (populations_get (populations (simulation self)) entity) ;
      do target_pop <- lift (populations_get (populations (simulation self)) target_entity) ;
      if String.eqb entity "person" && str_in target_entity ["benunit"; "household"]
      then
        if truthy how && negb (str_in (how_or_sum how) valid_how)
        then raise (ValueError "Not a valid function.")
        else
          do f <- lift (pop_getattribute target_pop (how_or_sum how)) ;
          do a <- lift (as_array arr) ;
          do r <- lift (f a) ;
          ret (Some r)
      else if str_in entity ["benunit"; "household"] && String.eqb target_entity "person"
      then
        if negb (truthy how)
        then
          do a <- lift (as_array arr) ;
          do r <- lift (pop_project entity_pop a) ;
          ret (Some r)
        else if how_is how "mean"
        then
          do a <- lift (as_array arr) ;
          do n <- lift (pop_nb_persons entity_pop) ;
          do q <- lift (true_divide a n) ;
          do r <- lift (pop_project entity_pop q) ;
          ret (Some r)
        else ret None
      else if String.eqb entity target_entity
      then ret arr
      else
        do inner <- map_to_rec depth' self arr entity "person" (Some "mean") ;
        map_to_rec depth' self inner "person" target_entity (Some "sum")
  end.

Definition map_to : Microsimulation -> option ndarray -> string -> string ->
                    option string -> M (option ndarray) :=
  map_to_rec recursion_limit.

(** The person-mediated transform in the words of the specification: the
    source array is divided by the number of persons of each source group
    and projected on the persons ([how="mean"]), and the person array is
    summed per target group ([how="sum"]). *)
Definition two_hop (source target : GroupPopulation) (a : ndarray)
  : M (option ndarray) :=
  do mean <- lift (true_divide a (gp_nb_persons source)) ;
  do persons <- lift (gp_project source mean) ;
  do total <- lift (gp_sum target persons) ;
  ret (Some total).

(** The three resolution attempts of [calc], lines 75-87.  [var_metadata]
    is the local variable bound by the first statement of the outer [try]
    when the variable is known. *)
Definition attempt_direct (sim : Simulation) (var : string) (p : period)
  (var_metadata : option VariableMeta) : M ndarray :=
  match var_metadata with
  | None => raise (KeyError var)
  | Some _ => do _ <- emit (EvCalculate var p) ; lift (calculate sim var p)
  end.

Definition attempt_add (sim : Simulation) (var : string) (p : period)
  (var_metadata : option VariableMeta) : M ndarray :=
  do _ <- emit (EvCalculateAdd var p) ;
  do arr <- lift (calculate_add sim var p) ;
  do vm <- local "var_metadata" var_metadata ;
  if decide (value_type vm = bool_t) then lift (ge_scalar arr 52)
  else ret arr.

Definition attempt_divide (sim : Simulation) (var : string) (p : period)
  : M ndarray :=
  do _ <- emit (EvCalculateDivide var p) ; lift (calculate_divide sim var p).

Definition resolve (sim : Simulation) (var : string) (p : period)
  (var_metadata : option VariableMeta) : M ndarray :=
  try_except (attempt_direct sim var p var_metadata)
    (fun e =>
       try_except (attempt_add sim var p var_metadata)
         (fun _ =>
            try_except (attempt_divide sim var p)
              (fun _ => raise e))).

(** Lines 88-91: the post-processing by value type. *)
Definition postprocess (vm : VariableMeta) (arr : ndarray) : M ndarray :=
  do arr <- (if decide (value_type vm = float_t) then lift (round arr) else ret arr) ;
  if decide (value_type vm = Enum_t) then lift (decode_to_str arr) else ret arr.

Definition dict_get {V} (d : gmap string V) (k : string) : M V :=
  match d !! k with
  | Some v => ret v
  | None => raise (KeyError k)
  end.

(** [calc(self, var, period=None, weighted=True, map_to=None, how=None, dp=2)];
    the body never reads [dp]. *)
Definition calc (self : Microsimulation) (var : string) (p : option period)
  (weighted : bool) (map_to_ : option string) (how : option string)
  : M CalcResult :=
  let p := match p with None => PInt (year self) | Some p => p end in
  let var_metadata := variables (simulation self) !! var in
  do arr <- resolve (simulation self) var p var_metadata ;
  do vm <- local "var_metadata" var_metadata ;
  do arr <- postprocess vm arr ;
  if negb weighted then ret (RawArray arr)
  else
    let entity := entity_key vm in
    match map_to_ with
    | Some target =>
        if truthy map_to_ then
          do mapped <- map_to self (Some arr) entity target how ;
          do w <- dict_get (entity_weights self) target ;
          ret (MicroSeries mapped w)
        else
          do w <- dict_get (entity_weights self) entity ;
          ret (MicroSeries (Some arr) w)
    | None =>
        do w <- dict_get (entity_weights self) entity ;
        ret (MicroSeries (Some arr) w)
    end.

(** Lines 88-99 of [calc] on their own: what becomes of the array that the
    resolution has returned for a variable with the metadata [vm]. *)
Definition deliver (self : Microsimulation) (vm : VariableMeta) (arr : ndarray)
  (weighted : bool) (map_to_ : option string) (how : option string)
  : M CalcResult :=
  do arr <- postprocess vm arr ;
  if negb weighted then ret (RawArray arr)
  else
    let entity := entity_key vm in
    match map_to_ with
    | Some target =>
        if truthy map_to_ then
          do mapped <- map_to self (Some arr) entity target how ;
          do w <- dict_get (entity_weights self) target ;
          ret (MicroSeries mapped w)
        else
          do w <- dict_get (entity_weights self) entity ;
          ret (MicroSeries (Some arr) w)
    | None =>
        do w <- dict_get (entity_weights self) entity ;
        ret (MicroSeries (Some arr) w)
    end.

(** *** [load_dataset], [__init__] and [deriv] *)

Record Relations : Type := {
  rel_person : ndarray;
  rel_benunit : ndarray;
  rel_household : ndarray;
  rel_person_benunit : ndarray;
  rel_person_household : ndarray;
  rel_person_role : ndarray
}.

Definition assoc {V} (k : string) (d : list (string * V)) : option V :=
  match List.find (fun kv => String.eqb (fst kv) k) d with
  | Some kv => Some (snd kv)
  | None => None
  end.

(** [data[name][year]] *)
Definition data_get (data : Data) (name yr : string) : M ndarray :=
  match assoc name data with
  | None => raise (KeyError name)
  | Some periods =>
      match assoc yr periods with
      | None => raise (KeyError yr)
      | Some a => ret a
      end
  end.

(** [str(n)] for an integer. *)
Definition str_of_Z (z : Z) : string := NilZero.string_of_int (Z.to_int z).

Definition str_of_nat (n : nat) : string := NilZero.string_of_uint (Nat.to_uint n).

(** The inner loop of lines 159-165: one [set_input] per period of a
    variable; a failure appends the variable's name to [skipped]. *)
Fixpoint set_inputs_periods (model : Simulation) (variable : string)
  (periods : list (string * ndarray)) (skipped : list string)
  : M (Simulation * list string) :=
  match periods with
  | [] => ret (model, skipped)
  | (p, a) :: rest =>
      do _ <- emit (EvSetInput variable p) ;
      match set_input model variable p a with
      | Ret model' => set_inputs_periods model' variable rest skipped
      | Raise _ => set_inputs_periods model variable rest (skipped ++ [variable])
      end
  end.

(** The outer loop of lines 158-165. *)
Fixpoint set_inputs (model : Simulation) (data : Data) (skipped : list string)
  : M (Simulation * list string) :=
  match data with
  | [] => ret (model, skipped)
  | (variable, periods) :: rest =>
      do r <- set_inputs_periods model variable periods skipped ;
      set_inputs (fst r) rest (snd r)
  end.

(** The text of the warning of lines 167-169. *)
Definition incomplete_warning (skipped : list string) : string :=
  String.append "Incomplete initialisation: skipped "
    (String.append (str_of_nat (length skipped)) " variables:").

(** The (variable, period) pairs of the store, in the order of the loops,
    and the events of one [set_input] call per pair. *)
Definition input_keys (data : Data) : list (string * string) :=
  flat_map (fun vp => map (fun pa => (fst vp, fst pa)) (snd vp)) data.

Definition set_input_events (keys : list (string * string)) : list event :=
  map (fun k => EvSetInput (fst k) (snd k)) keys.

(** The names that the loops append to [skipped] when [set_input] raises
    on exactly the pairs that [accepts] rejects: one per refused pair, in
    the order of the loops. *)
Definition refused (accepts : string -> string -> bool)
  (keys : list (string * string)) : list string :=
  map fst (List.filter (fun k => negb (accepts (fst k) (snd k))) keys).

(** The warnings of a load that skipped [skipped]: none when the list is
    empty, one otherwise. *)
Definition warning_events (skipped : list string) : list event :=
  match skipped with
  | [] => []
  | _ :: _ => [EvWarn (incomplete_warning skipped)]
  end.

Definition is_warning (ev : event) : bool :=
  match ev with
  | EvWarn _ => true
  | _ => false
  end.

Definition instance_attributes : list string :=
  ["dataset"; "year"; "reforms"; "system"; "relations"; "simulation";
   "entity_weights"; "bonus_sims"].

(** [self.name]: the attributes of an instance are those assigned by
    [__init__] and [load_dataset]; the class defines no other data
    attribute. *)
Definition getattr {A} (name : string) (value : A) : M A :=
  if str_in name instance_attributes then ret value
  else raise (AttributeError name).

(** The keyword parameters of [__init__(self, *reforms, year=2020, dataset=None)]. *)
Definition init_keywords : list string := ["year"; "dataset"].

Definition with_bonus_sim (self : Microsimulation) (c : Config)
  (b : Microsimulation) : Microsimulation :=
  {| dataset := dataset self; year := year self; reforms := reforms self;
     simulation := simulation self; entity_weights := entity_weights self;
     bonus_sims := (c, b) :: bonus_sims self |}.

Fixpoint bonus_get (c : Config) (d : list (Config * Microsimulation))
  : option Microsimulation :=
  match d with
  | [] => None
  | (k, v) :: rest => if config_eqb k c then Some v else bonus_get c rest
  end.

(** The values of what [calc] returns. *)
Definition ms_values (r : CalcResult) : res ndarray :=
  match r with
  | RawArray a => Ret a
  | MicroSeries v _ => as_array v
  end.

(** A pandas [Series] of floats on the default index [0 .. n-1]. *)
Definition Series : Type := list Float64.t.

(** [series.astype(float)]: the values as floats in a plain [Series]; the
    weights of a [MicroSeries] are not carried over. *)
Definition ms_astype_float (r : CalcResult) : M Series :=
  do a <- lift (ms_values r) ;
  do f <- lift (astype_float a) ;
  lift (as_float f).

(** [x - y] and [x / y] on two [Series]: pandas aligns the operands on
    their index, and a position that only one of them has is NaN. *)
Fixpoint series_binop (f : Float64.t -> Float64.t -> Float64.t) (x y : Series)
  : Series :=
  match x, y with
  | a :: x', b :: y' => f a b :: series_binop f x' y'
  | [], _ => map (fun _ => Float64.NaN) y
  | _, [] => map (fun _ => Float64.NaN) x
  end.

Inductive DerivBranch : Type := SameEntity | GroupEntity | Unable.

(** Lines 189-193, 230-233 and 292: which branch [deriv] takes. *)
Definition deriv_branch (self : Microsimulation) (target wrt : string)
  : M DerivBranch :=
  do t <- dict_get (variables (simulation self)) target ;
  do w <- dict_get (variables (simulation self)) wrt ;
  if String.eqb (entity_key t) (entity_key w) then ret SameEntity
  else if str_in (entity_key t) ["benunit"; "household"]
          && String.eqb (entity_key w) "person"
  then ret GroupEntity
  else ret Unable.

Section Facade.

(** [SimulationBuilder]: declares the three entities from the relation
    arrays, joins the persons to their groups and builds the simulation of
    the system obtained by applying the reforms. *)
Variable build_model : list Reform -> Relations -> Simulation.

(** [load_dataset(self, dataset, year)], returning the simulation it
    stores in [self.simulation]. *)
Definition load_dataset (reforms_ : list Reform) (ds : Dataset) (y : Z)
  : M Simulation :=
  let data := load ds y in
  let yr := str_of_Z y in
  do p_id <- data_get data "P_person_id" yr ;
  do b_id <- data_get data "B_benunit_id" yr ;
  do h_id <- data_get data "H_household_id" yr ;
  do p_b <- data_get data "P_benunit_id" yr ;
  do p_h <- data_get data "P_household_id" yr ;
  do roles <- data_get data "P_role" yr ;
  let model :=
    build_model reforms_
      {| rel_person := p_id; rel_benunit := b_id; rel_household := h_id;
         rel_person_benunit := p_b; rel_person_household := p_h;
         rel_person_role := roles |} in
  do r <- set_inputs model data [] ;
  do _ <- match snd r with
          | [] => ret tt
          | _ :: _ => emit (EvWarn (incomplete_warning (snd r)))
          end ;
  ret (fst r).

(** [self.calc(var, weighted=False)] inside [__init__]. *)
Definition calc_unweighted (self : Microsimulation) (var : string) : M ndarray :=
  do r <- calc self var None false None None ;
  lift (ms_values r).

(** [__init__(self, *reforms, year=2020, dataset=None)] *)
Definition init (reforms_ : list Reform) (y : Z) (ds : option Dataset)
  : M Microsimulation :=
  match ds with
  | None => raise (AttributeError "input_reform")
  | Some d =>
      let rs := input_reform d :: reforms_ in
      do sim <- load_dataset rs d y ;
      let self0 :=
        {| dataset := ds; year := y; reforms := rs; simulation := sim;
           entity_weights := ∅; bonus_sims := [] |} in
      do pw <- calc_unweighted self0 "person_weight" ;
      do bw <- calc_unweighted self0 "benunit_weight" ;
      do hw <- calc_unweighted self0 "household_weight" ;
      ret {| dataset := ds; year := y; reforms := rs; simulation := sim;
             entity_weights :=
               <["person" := pw]> (<["benunit" := bw]> (<["household" := hw]> ∅));
             bonus_sims := [] |}
  end.

(** A call of the class [Microsimulation]: a keyword that the signature
    of [__init__] does not have is a [TypeError]. *)
Definition Microsimulation_new (args : list Reform) (kwargs : list string)
  (y : Z) (ds : option Dataset) : M Microsimulation :=
  match List.filter (fun k => negb (str_in k init_keywords)) kwargs with
  | k :: _ => raise (TypeError (String.append "unexpected keyword argument " k))
  | [] => init args y ds
  end.

(** Lines 194-218: the sibling simulation of a configuration, built on the
    first request and stored in [self.bonus_sims]. *)
Definition bonus_sim_for (self : Microsimulation) (wrt : string) (delta : Q)
  (percent : bool) : M Microsimulation :=
  let config := (wrt, delta, percent, "same-entity") in
  match bonus_get config (bonus_sims self) with
  | Some _ => ret self
  | None =>
      do existing_var_class <- dict_get (variables (simulation self)) wrt ;
      let bonus_ref := BonusRef wrt delta percent in
      let args := [ReformGroup (tl (reforms self) ++ [bonus_ref])] in
      do mode <- getattr "mode" tt ;
      do y <- getattr "year" (year self) ;
      do input_year <- getattr "input_year" tt ;
      do sibling <- Microsimulation_new args ["mode"; "year"; "input_year"] y None ;
      ret (with_bonus_sim self config sibling)
  end.

(** Lines 194-229: [deriv] when target and source are on the same entity.
    The result carries the instance with its updated [bonus_sims]; the
    gradient is a plain [Series]. *)
Definition deriv_same_entity (self : Microsimulation) (target wrt : string)
  (delta : Q) (percent : bool) : M (Microsimulation * Series) :=
  let config := (wrt, delta, percent, "same-entity") in
  do self <- bonus_sim_for self wrt delta percent ;
  do bonus_sim <- match bonus_get config (bonus_sims self) with
                  | Some b => ret b
                  | None => raise (KeyError "same-entity")
                  end ;
  do b_wrt <- calc bonus_sim wrt None true None None ;
  do b_wrt <- ms_astype_float b_wrt ;
  do s_wrt <- calc self wrt None true None None ;
  do s_wrt <- ms_astype_float s_wrt ;
  let bonus_increase := series_binop Float64.sub b_wrt s_wrt in
  do b_target <- calc bonus_sim target None true None None ;
  do b_target <- ms_astype_float b_target ;
  do s_target <- calc self target None true None None ;
  do s_target <- ms_astype_float s_target ;
  let target_increase := series_binop Float64.sub b_target s_target in
  let gradient := series_binop Float64.div target_increase bonus_increase in
  ret (self, gradient).

End Facade.

End Microsim.

(** ** [would_claim_PC] (pension_credit.py) *)

Module PensionCredit.

(** What the formula reads.  [aggr] and [random] are helpers of
    openfisca_uk's tools that are not among the sources at hand: the array
    that [aggr(benunit, period, ["pension_credit_reported"])] returns (the
    members' reported amounts, one total per benefit unit) and the draw that
    [random(benunit)] returns are inputs, next to the benefit-unit variable
    [claims_all_entitled_benefits] and the parameter
    [benefit.pension_credit.takeup]. *)
Record Inputs : Type := {
  aggr_pension_credit_reported : ndarray;
  claims_all_entitled_benefits : ndarray;
  takeup : Float64.t;
  random : ndarray
}.

(** The literal [True] as an operand of [|]. *)
Definition py_True : ndarray := BoolArray [true].

(** [would_claim_PC.formula(benunit, period, parameters)] *)
Definition would_claim_PC (i : Inputs) : M ndarray :=
  do reported_pc <- lift (greater (aggr_pension_credit_reported i)
                                  (scalar (Float64.Fin 0))) ;
  let takeup_rate := takeup i in
  do imputed_takeup <- lift (less (random i) (scalar takeup_rate)) ;
  do r1 <- lift (bitwise_or py_True (claims_all_entitled_benefits i)) ;
  do r2 <- lift (bitwise_or r1 imputed_takeup) ;
  lift (bitwise_or r2 reported_pc).

End PensionCredit.

(** ** [bi_household_phaseout] (bi_phaseout.py) *)

Module BasicIncome.

(** What the formula reads: the households of the persons, three
    person-level variables, and the two parameters under
    [contrib.ubi_center.basic_income.phase_out.household]. *)
Record Inputs : Type := {
  household : GroupPopulation;
  total_income : ndarray;
  bi_maximum : ndarray;
  bi_individual_phaseout : ndarray;
  threshold : Float64.t;
  rate : Float64.t
}.

(** [person.household.sum(array)]: the household total, projected back on
    the members. *)
Definition household_sum (i : Inputs) (a : ndarray) : res ndarray :=
  match gp_sum (household i) a with
  | Ret s => gp_project (household i) s
  | Raise e => Raise e
  end.

(** The local variables of the formula that the properties below name. *)
Record Locals : Type := {
  remaining_bi : ndarray;
  household_bi : ndarray;
  capped_deduction : ndarray;
  percent_reduction : ndarray;
  result : ndarray
}.

(** The body of [bi_household_phaseout.formula(person, period, parameters)],
    statement by statement. *)
Definition formula_body (i : Inputs) : M Locals :=
  let income := total_income i in
  do household_income <- lift (household_sum i income) ;
  do remaining <- lift (subtract (bi_maximum i) (bi_individual_phaseout i)) ;
  do hbi <- lift (household_sum i remaining) ;
  do over <- lift (subtract household_income (scalar (threshold i))) ;
  do income_over_threshold <- lift (np_maximum over (scalar (Float64.Fin 0))) ;
  do uncapped_deduction <- lift (multiply (scalar (rate i)) income_over_threshold) ;
  do capped <- lift (np_minimum hbi uncapped_deduction) ;
  do positive <- lift (greater hbi (scalar (Float64.Fin 0))) ;
  do ratio <- lift (true_divide capped hbi) ;
  do factor <- lift (where_ positive ratio (scalar (Float64.Fin 0))) ;
  do out <- lift (multiply factor remaining) ;
  ret {| remaining_bi := remaining; household_bi := hbi;
         capped_deduction := capped; percent_reduction := factor;
         result := out |}.


End BasicIncome.

(** ** Concrete simulations used by the examples below *)

Module Examples.

Import Microsim.

(** Four persons in three benefit units and two households. *)
Definition pops : Populations :=
  {| person_count := 4;
     benunit := {| count := 3; members_entity_id := [0; 0; 1; 2]%nat |};
     household := {| count := 2; members_entity_id := [0; 0; 0; 1]%nat |} |}.

Definition weights : gmap string ndarray :=
  <["person" := FloatArray (map Float64.of_Z [1; 1; 1; 1]%Z)]>
    (<["benunit" := FloatArray (map Float64.of_Z [1; 1; 1]%Z)]>
       (<["household" := FloatArray (map Float64.of_Z [1; 1]%Z)]> ∅)).

Definition ids (zs : list Z) : list (string * ndarray) := [("2020", IntArray zs)].

(** A dataset with the six relation arrays and one more variable. *)
Definition frs_data : Data :=
  [("P_person_id", ids [0; 1]%Z); ("B_benunit_id", ids [0]%Z);
   ("H_household_id", ids [0]%Z); ("P_benunit_id", ids [0; 0]%Z);
   ("P_household_id", ids [0; 0]%Z); ("P_role", ids [0; 1]%Z);
   ("savings_income", [("2019", FloatArray [Float64.Fin 1; Float64.Fin 2]);
                       ("2020", FloatArray [Float64.Fin 1; Float64.Fin 2])])].

Definition frs : Dataset :=
  {| input_reform := InputReform "frs"; load := fun _ => frs_data |}.

Definition fail (msg : string) : string -> period -> res ndarray :=
  fun _ _ => Raise (EngineError msg).

(** An engine given by its three entry points, which accepts no input. *)
Definition engine (vars : gmap string VariableMeta)
  (direct add divide : string -> period -> res ndarray) : Simulation :=
  {| variables := vars; populations := pops;
     calculate := direct; calculate_add := add; calculate_divide := divide;
     set_input := fun v _ _ => Raise (EngineError v) |}.

Definition microsim (sim : Simulation) : Microsimulation :=
  {| dataset := Some frs; year := 2020; reforms := [InputReform "frs"];
     simulation := sim; entity_weights := weights; bonus_sims := [] |}.

(** A float variable on persons for which the three attempts fail, each
    with its own exception. *)
Definition sim_all_fail : Microsimulation :=
  microsim (engine {[ "v" := {| value_type := float_t; entity_key := "person" |} ]}
                   (fail "direct") (fail "add") (fail "divide")).

(** A boolean indicator defined per month: the exact-period request of a
    year fails, and [calculate_add] returns, per person, the number of
    months of the year in which the indicator is true. *)
Definition monthly_indicator (months : list (list bool)) : Microsimulation :=
  microsim (engine {[ "in_work" := {| value_type := bool_t; entity_key := "person" |} ]}
                   (fail "period mismatch")
                   (fun _ _ =>
                      Ret (IntArray
                             (map (fun person =>
                                     Z.of_nat (length (List.filter id person)))
                                  months)))
                   (fail "divide")).

(** A float variable on benefit units, and one on persons. *)
Definition sim_values : Microsimulation :=
  microsim (engine
              (<["rent" := {| value_type := float_t; entity_key := "benunit" |}]>
                 {[ "wage" := {| value_type := float_t; entity_key := "person" |} ]})
              (fun v _ =>
                 if String.eqb v "rent"
                 then Ret (FloatArray [Float64.Fin (1234 # 1000); Float64.Fin 10; Float64.Fin 7])
                 else Ret (FloatArray [Float64.Fin (5 # 1000); Float64.Fin 1;
                                       Float64.Fin 2; Float64.Fin 3]))
              (fail "add") (fail "divide")).

(** The linear system [output = 2 * wrt + 10] on persons. *)
Definition wrt_values : list Q := [0; 50; 1000; 12345 # 10]%Q.

Definition sim_linear : Microsimulation :=
  microsim (engine
              (<["output" := {| value_type := float_t; entity_key := "person" |}]>
                 {[ "wrt" := {| value_type := float_t; entity_key := "person" |} ]})
              (fun v _ =>
                 if String.eqb v "wrt"
                 then Ret (FloatArray (map Float64.Fin wrt_values))
                 else Ret (FloatArray (map (fun w => Float64.Fin (Qred (2 * w + 10))) wrt_values)))
              (fail "add") (fail "divide")).

(** The same system with [wrt] raised by 100, stored by hand as the sibling
    of [(wrt, 100, False, "same-entity")]. *)
Definition sim_linear_sibling : Microsimulation :=
  microsim (engine
              (<["output" := {| value_type := float_t; entity_key := "person" |}]>
                 {[ "wrt" := {| value_type := float_t; entity_key := "person" |} ]})
              (fun v _ =>
                 if String.eqb v "wrt"
                 then Ret (FloatArray (map (fun w => Float64.Fin (Qred (w + 100))) wrt_values))
                 else Ret (FloatArray
                             (map (fun w => Float64.Fin (Qred (2 * (w + 100) + 10)))
                                  wrt_values)))
              (fail "add") (fail "divide")).

Definition sim_linear_cached : Microsimulation :=
  with_bonus_sim sim_linear ("wrt", 100%Q, false, "same-entity") sim_linear_sibling.

(** An engine that stores up to [n] inputs of the variables it knows. *)
Fixpoint storing_engine (n : nat) (known : list string) : Simulation :=
  {| variables := ∅; populations := pops;
     calculate := fail "no formula"; calculate_add := fail "no formula";
     calculate_divide := fail "no formula";
     set_input := fun v _ _ =>
       match n with
       | O => Raise (EngineError "full")
       | S n' => if str_in v known then Ret (storing_engine n' known)
                 else Raise (EngineError v)
       end |}.

(** The builder of a system that has the relation variables but not
    [savings_income]. *)
Definition builder : list Reform -> Relations -> Simulation :=
  fun _ _ =>
    storing_engine 100
      ["P_person_id"; "B_benunit_id"; "H_household_id"; "P_benunit_id";
       "P_household_id"; "P_role"].

(** Four persons, the last one alone in a household whose remaining basic
    income is zero. *)
Definition phaseout_inputs : BasicIncome.Inputs :=
  {| BasicIncome.household := household pops;
     BasicIncome.total_income := FloatArray (map Float64.Fin [100; 200; 0; 50]%Q);
     BasicIncome.bi_maximum := FloatArray (map Float64.Fin [10; 10; 10; 0]%Q);
     BasicIncome.bi_individual_phaseout := FloatArray (map Float64.Fin [0; 5; 10; 0]%Q);
     BasicIncome.threshold := Float64.Fin 250;
     BasicIncome.rate := Float64.Fin (1 # 10) |}.

(** Whether [sub] occurs in [s]. *)
Fixpoint contains (sub s : string) : bool :=
  String.prefix sub s ||
  match s with
  | EmptyString => false
  | String _ rest => contains sub rest
  end.

End Examples.

(** ** Further numpy operations and comparisons of values *)

Module NumpyMore.

(** [a + b] *)
Definition np_add : ndarray -> ndarray -> res ndarray := lift2 Float64.add.

(** [a & b] on boolean operands. *)
Definition bitwise_and (a b : ndarray) : res ndarray :=
  match as_bool a, as_bool b with
  | Ret xs, Ret ys =>
      match broadcast2 andb xs ys with
      | Ret zs => Ret (BoolArray zs)
      | Raise e => Raise e
      end
  | Raise e, _ | _, Raise e => Raise e
  end.

(** Two values that are the same number (a finite value is kept as a
    fraction, which need not be in lowest terms). *)
Definition feqv (x y : Float64.t) : Prop :=
  match x, y with
  | Float64.Fin a, Float64.Fin b => (a == b)%Q
  | Float64.PInf, Float64.PInf | Float64.NInf, Float64.NInf
  | Float64.NaN, Float64.NaN => True
  | _, _ => False
  end.

(** [x <= y] between finite values. *)
Definition fle (x y : Float64.t) : Prop :=
  match x, y with
  | Float64.Fin a, Float64.Fin b => (a <= b)%Q
  | _, _ => False
  end.

End NumpyMore.

Import NumpyMore.

(** ** [Microsimulation.df] and [Microsimulation.apply_reforms] *)

Module Frames.

Import Microsim.

(** A [MicroDataFrame]: its columns in order, and the weights. *)
Record MicroDataFrame : Type := {
  columns : list (string * CalcResult);
  frame_weights : ndarray
}.

(** [df[var] = column]: a column of that name is replaced where it stands,
    a new name is appended. *)
Fixpoint set_column (cols : list (string * CalcResult)) (var : string)
  (c : CalcResult) : list (string * CalcResult) :=
  match cols with
  | [] => [(var, c)]
  | (k, v) :: rest =>
      if String.eqb k var then (k, c) :: rest
      else (k, v) :: set_column rest var c
  end.

(** The loop of lines 109-110. *)
Fixpoint df_columns (self : Microsimulation) (vars : list string)
  (p : option period) (entity : string) (cols : list (string * CalcResult))
  : M (list (string * CalcResult)) :=
  match vars with
  | [] => ret cols
  | var :: rest =>
      do c <- calc self var p true (Some entity) None ;
      df_columns self rest p entity (set_column cols var c)
  end.

(** [map_to or self.simulation.tax_benefit_system.variables[vars[0]].entity.key] *)
Definition df_entity (self : Microsimulation) (vars : list string)
  (map_to_ : option string) : M string :=
  let first_entity :=
    match vars with
    | [] => raise (IndexError "list index out of range")
    | v :: _ =>
        do m <- dict_get (variables (simulation self)) v ;
        ret (entity_key m)
    end in
  match map_to_ with
  | Some t => if truthy map_to_ then ret t else first_entity
  | None => first_entity
  end.

(** [df(self, vars, period=None, map_to=None)] *)
Definition df (self : Microsimulation) (vars : list string) (p : option period)
  (map_to_ : option string) : M MicroDataFrame :=
  do entity <- df_entity self vars map_to_ ;
  do cols <- df_columns self vars p entity [] ;
  do w <- dict_get (entity_weights self) entity ;
  ret {| columns := cols; frame_weights := w |}.

Section ApplyReforms.

(** The tax-benefit system, and [reform(self.system)] for a reform that is
    neither a tuple nor a list. *)
Variable System : Type.
Variable apply_one : Reform -> System -> System.

(** One iteration of the loop of [apply_reforms]: a tuple or a list is
    applied by the recursive call, anything else is called on the system. *)
Fixpoint apply_reform (r : Reform) (sys : System) : System :=
  match r with
  | ReformGroup rs => fold_left (fun s r' => apply_reform r' s) rs sys
  | _ => apply_one r sys
  end.

(** [apply_reforms(self, reforms)], on [self.system]. *)
Definition apply_reforms (rs : list Reform) (sys : System) : System :=
  fold_left (fun s r => apply_reform r s) rs sys.

End ApplyReforms.

(** The reforms of a nested structure, left to right. *)
Fixpoint flatten (r : Reform) : list Reform :=
  match r with
  | ReformGroup rs => flat_map flatten rs
  | _ => [r]
  end.

End Frames.

(** ** [chain] (tools/simulation.py) *)

Module Tools.

Section Chain.

(** The object that [parameters] refers to, and what a function returns.
    A function may change the object in place: it maps the object's state
    to its new state and the returned value, or raises. *)
Variables (P R : Type).

Definition Func : Type := P -> res (P * R).

(** The loop of [f]: [args] is unbound until the first call has returned. *)
Fixpoint chain_loop (funcs : list Func) (parameters : P) (args : option R)
  : res (P * option R) :=
  match funcs with
  | [] => Ret (parameters, args)
  | func :: rest =>
      match func parameters with
      | Raise e => Raise e
      | Ret (parameters', r) => chain_loop rest parameters' (Some r)
      end
  end.

(** [chain( *funcs )(parameters)]: the state of the object afterwards and
    the value returned. *)
Definition chain (funcs : list Func) (parameters : P) : res (P * R) :=
  match chain_loop funcs parameters None with
  | Raise e => Raise e
  | Ret (parameters', Some r) => Ret (parameters', r)
  | Ret (_, None) => Raise (UnboundLocalError "args")
  end.

End Chain.

End Tools.

(** ** The other Pension Credit variables (pension_credit.py) *)

Module PensionCreditAmounts.

(** What a formula sees of the benefit units at the period: the value of a
    variable [benunit(name, period)], of a person-level variable
    [benunit.members(name, period)], and of the two helpers
    [add(benunit, period, names)] and [aggr(benunit, period, names)] of
    openfisca_uk's tools, which are not among the sources at hand. *)
Record BenUnit : Type := {
  population : GroupPopulation;
  var : string -> ndarray;
  members : string -> ndarray;
  add : list string -> ndarray;
  aggr : list string -> ndarray
}.

(** The parameters read at the period.  [minimum_guarantee] and
    [income_threshold] are the arrays [mg[relation_type]] and
    [SC.income_threshold[relation_type]]; [WEEKS_IN_YEAR] is a constant of
    the tools. *)
Record Parameters : Type := {
  minimum_guarantee : ndarray;
  child : Float64.t;
  income_threshold : ndarray;
  withdrawal_rate : Float64.t;
  include_in_means_tests : bool;
  WEEKS_IN_YEAR : Float64.t
}.

Definition zero : ndarray := scalar (Float64.Fin 0).

(** [pension_credit_eligible.formula(benunit, period)] *)
Definition pension_credit_eligible (b : BenUnit) : M ndarray :=
  let person_is_SP_age := members b "is_SP_age" in
  do all_SP_age <- lift (gp_all (population b) person_is_SP_age) ;
  do any_SP_age <- lift (gp_any (population b) person_is_SP_age) ;
  do claiming_HB <- lift (greater (var b "housing_benefit") zero) ;
  do both <- lift (bitwise_and any_SP_age claiming_HB) ;
  lift (bitwise_or all_SP_age both).

(** [pension_credit_MG.formula(benunit, period, parameters)] *)
Definition pension_credit_MG (b : BenUnit) (pc : Parameters) : M ndarray :=
  let mg := minimum_guarantee pc in
  do personal_allowance <- lift (multiply mg (scalar (WEEKS_IN_YEAR pc))) ;
  let premiums := add b ["severe_disability_premium"; "carer_premium"] in
  let num_children := var b "num_children" in
  do additional_child_bonus <- lift (multiply (scalar (child pc)) num_children) ;
  do s <- lift (np_add personal_allowance premiums) ;
  do applicable_amount <- lift (np_add s additional_child_bonus) ;
  do m <- lift (multiply applicable_amount (var b "pension_credit_eligible")) ;
  lift (multiply m (var b "would_claim_PC")).





Definition EXEMPTED_PERSONAL_BENEFITS : list string :=
  ["incapacity_benefit"; "JSA_contrib"; "ESA_contrib"; "sda"; "maintenance_income"].

(** [savings_credit_applicable_income.formula(benunit, period, parameters)] *)
Definition savings_credit_applicable_income (b : BenUnit) : M ndarray :=
  let GC_income := var b "guarantee_credit_applicable_income" in
  let exempted_personal_benefits := aggr b EXEMPTED_PERSONAL_BENEFITS in
  let exempted_family_benefits := add b ["working_tax_credit"] in
  do d1 <- lift (subtract GC_income exempted_personal_benefits) ;
  do d2 <- lift (subtract d1 exempted_family_benefits) ;
  lift (np_maximum d2 zero).

(** [pension_credit_SC.formula(benunit, period, parameters)] *)
Definition pension_credit_SC (b : BenUnit) (SC : Parameters) : M ndarray :=
  let income := var b "savings_credit_applicable_income" in
  let appropriate_amount := var b "pension_credit_MG" in
  do threshold <- lift (multiply (income_threshold SC) (scalar (WEEKS_IN_YEAR SC))) ;
  let keep := scalar (Float64.sub (Float64.Fin 1) (withdrawal_rate SC)) in
  do over_a <- lift (subtract appropriate_amount threshold) ;
  do over_a <- lift (np_maximum over_a zero) ;
  do maximum_amount <- lift (multiply keep over_a) ;
  do over_i <- lift (subtract income threshold) ;
  do over_i <- lift (np_maximum over_i zero) ;
  do kept <- lift (multiply keep over_i) ;
  do amount_A <- lift (np_minimum kept maximum_amount) ;
  do excess <- lift (subtract income appropriate_amount) ;
  do excess <- lift (np_maximum excess zero) ;
  do amount_B <- lift (multiply excess (scalar (withdrawal_rate SC))) ;
  do diff <- lift (subtract amount_A amount_B) ;
  do amount <- lift (np_maximum diff zero) ;
  lift (multiply amount (var b "pension_credit_eligible")).

(** [pension_credit.formula(benunit, period, parameters)] *)
Definition pension_credit (b : BenUnit) : M ndarray :=
  let COMPONENTS := ["pension_credit_GC"; "pension_credit_SC"] in
  lift (multiply (add b COMPONENTS) (var b "would_claim_PC")).

End PensionCreditAmounts.

(** ** Income tax reliefs (relief.py) *)

Module Relief.

(** The value of a variable for the persons at the period,
    [person(name, period)]. *)
Definition Person : Type := string -> ndarray.

Definition zero : ndarray := scalar (Float64.Fin 0).

(** [taxable_employment_income.formula(person, period, parameters)] *)
Definition taxable_employment_income (person : Person) : M ndarray :=
  let taxable_earnings := person "employment_income" in
  let deductions := person "employment_deductions" in
  do d <- lift (subtract taxable_earnings deductions) ;
  lift (np_maximum zero d).

(** [pension_contributions_relief.formula_2004_07_22(person, period, parameters)],
    with the parameter [tax.income_tax.reliefs.pension_contribution.basic_amount]. *)
Definition pension_contributions_relief (person : Person)
  (basic_amount : Float64.t) : M ndarray :=
  let contributions := person "pension_contributions" in
  let pay := person "employment_income" in
  do under_75 <- lift (less (person "age") (scalar (Float64.Fin 75))) ;
  do floor <- lift (np_maximum (scalar basic_amount) contributions) ;
  do capped <- lift (np_minimum pay floor) ;
  lift (multiply capped under_75).

(** [taxable_savings_interest_income.formula(person, period, parameters)] *)
Definition taxable_savings_interest_income (person : Person) : M ndarray :=
  let total_interest := person "savings_interest_income" in
  let exempt_interest := person "ISA_interest_income" in
  do d <- lift (subtract total_interest exempt_interest) ;
  lift (np_maximum zero d).

(** [taxable_dividend_income.formula(person, period, parameters)] *)
Definition taxable_dividend_income (person : Person) : M ndarray :=
  do d <- lift (subtract (person "dividend_income") (person "deficiency_relief")) ;
  lift (np_maximum zero d).

End Relief.

(** ** [bi_individual_phaseout] (bi_phaseout.py) *)

Module BasicIncomeIndividual.

(** What the formula reads: two person-level variables and the two
    parameters under [contrib.ubi_center.basic_income.phase_out.individual]. *)
Record Inputs : Type := {
  total_income : ndarray;
  bi_maximum : ndarray;
  threshold : Float64.t;
  rate : Float64.t
}.

(** [bi_individual_phaseout.formula(person, period, parameters)] *)
Definition bi_individual_phaseout (i : Inputs) : M ndarray :=
  let income := total_income i in
  let max_bi := bi_maximum i in
  do over <- lift (subtract income (scalar (threshold i))) ;
  do income_over_threshold <- lift (np_maximum over (scalar (Float64.Fin 0))) ;
  do uncapped_deduction <- lift (multiply (scalar (rate i)) income_over_threshold) ;
  lift (np_minimum max_bi uncapped_deduction).


End BasicIncomeIndividual.

(** ** Names and simulations used by the further properties *)

Module Examples2.

Import Microsim Examples.

(** The six arrays that [load_dataset] reads before it builds the
    simulation, in the order in which it reads them. *)
Definition relation_keys : list string :=
  ["P_person_id"; "B_benunit_id"; "H_household_id"; "P_benunit_id";
   "P_household_id"; "P_role"].

Definition weight_variables : gmap string VariableMeta :=
  <["person_weight" := {| value_type := float_t; entity_key := "person" |}]>
    (<["benunit_weight" := {| value_type := float_t; entity_key := "benunit" |}]>
       {[ "household_weight" := {| value_type := float_t; entity_key := "household" |} ]}).

(** An engine with the three weight variables, which stores up to [n]
    inputs. *)
Fixpoint weights_engine (n : nat) : Simulation :=
  {| variables := weight_variables; populations := pops;
     calculate := fun v _ =>
       if String.eqb v "person_weight"
       then Ret (FloatArray (map Float64.Fin [1; 1; 1; 1]%Q))
       else if String.eqb v "benunit_weight"
       then Ret (FloatArray (map Float64.Fin [1; 1; 1]%Q))
       else if String.eqb v "household_weight"
       then Ret (FloatArray (map Float64.Fin [1; 1]%Q))
       else Raise (EngineError v);
     calculate_add := fail "add"; calculate_divide := fail "divide";
     set_input := fun v _ _ =>
       match n with
       | O => Raise (EngineError "full")
       | S n' => Ret (weights_engine n')
       end |}.

Definition weights_builder : list Reform -> Relations -> Simulation :=
  fun _ _ => weights_engine 10.

(** A float variable on persons that only [calculate_divide] resolves. *)
Definition sim_divided : Microsimulation :=
  microsim (engine {[ "v" := {| value_type := float_t; entity_key := "person" |} ]}
                   (fail "direct") (fail "add")
                   (fun _ _ => Ret (FloatArray (map Float64.Fin [1; 2; 3; 4]%Q)))).

(** A builder whose simulation accepts no input at all. *)
Definition refusing_builder : list Reform -> Relations -> Simulation :=
  fun _ _ => storing_engine 0 [].


End Examples2.

(** ** The units of the vectorised formulas

    A formula works on whole arrays; its inputs are the columns of a table
    with one row per unit.  The records below are the rows. *)

Module Units.


(** A benefit unit as [pension_credit_SC] sees it. *)
Record SavingsUnit : Type := {
  sc_income : Q;
  sc_appropriate_amount : Q;
  sc_threshold_weekly : Q;
  sc_eligible : bool
}.

(** A person as [pension_contributions_relief] sees it. *)
Record Contributor : Type := {
  contributions : Q;
  pay : Q;
  age : Q
}.

(** A person as the [taxable_...] formulas see it: a gross amount and what
    is set against it. *)
Record Taxable : Type := {
  gross : Q;
  deduction : Q
}.


(** A person as the basic-income phase-outs see it. *)
Record Recipient : Type := {
  income : Q;
  maximum : Q
}.

Definition fin {U} (f : U -> Q) (u : U) : Float64.t := Float64.Fin (f u).

(** The column of a table. *)
Definition column {U} (f : U -> Q) (rows : list U) : ndarray :=
  FloatArray (map (fin f) rows).

Definition flags {U} (f : U -> bool) (rows : list U) : ndarray :=
  BoolArray (map f rows).

End Units.

(** ** Tables used by the examples of the formulas *)

Module Examples3.

Import Microsim Examples Units.

(** Benefit units whose variables are the given columns. *)
Definition benunits (vars : list (string * ndarray)) (sums : ndarray)
  : PensionCreditAmounts.BenUnit :=
  {| PensionCreditAmounts.population := benunit pops;
     PensionCreditAmounts.var := fun name =>
       match assoc name vars with Some a => a | None => FloatArray [] end;
     PensionCreditAmounts.members := fun _ => BoolArray [];
     PensionCreditAmounts.add := fun _ => sums;
     PensionCreditAmounts.aggr := fun _ => sums |}.

Definition persons (vars : list (string * ndarray)) : Relief.Person :=
  fun name => match assoc name vars with Some a => a | None => FloatArray [] end.

Definition savings_units : list SavingsUnit :=
  [{| sc_income := 9500; sc_appropriate_amount := 9000;
      sc_threshold_weekly := 150; sc_eligible := true |};
   {| sc_income := 7000; sc_appropriate_amount := 9000;
      sc_threshold_weekly := 150; sc_eligible := true |};
   {| sc_income := 8500; sc_appropriate_amount := 9000;
      sc_threshold_weekly := 150; sc_eligible := false |}].

Definition savings_parameters : PensionCreditAmounts.Parameters :=
  {| PensionCreditAmounts.minimum_guarantee := FloatArray [];
     PensionCreditAmounts.child := Float64.Fin 0;
     PensionCreditAmounts.income_threshold := column sc_threshold_weekly savings_units;
     PensionCreditAmounts.withdrawal_rate := Float64.Fin (4 # 10);
     PensionCreditAmounts.include_in_means_tests := false;
     PensionCreditAmounts.WEEKS_IN_YEAR := Float64.Fin 52 |}.

Definition savings_benunits : PensionCreditAmounts.BenUnit :=
  benunits [("savings_credit_applicable_income", column sc_income savings_units);
            ("pension_credit_MG", column sc_appropriate_amount savings_units);
            ("pension_credit_eligible", flags sc_eligible savings_units)]
           (FloatArray []).

Definition contributors : list Contributor :=
  [{| contributions := 0; pay := 30000; age := 40 |};
   {| contributions := 5000; pay := 30000; age := 40 |};
   {| contributions := 5000; pay := 2000; age := 40 |};
   {| contributions := 5000; pay := 30000; age := 75 |}].

Definition contributing_persons : Relief.Person :=
  persons [("pension_contributions", column contributions contributors);
           ("employment_income", column pay contributors);
           ("age", column age contributors)].

Definition taxables : list Taxable :=
  [{| gross := 1000; deduction := 300 |}; {| gross := 200; deduction := 300 |};
   {| gross := 0; deduction := 0 |}].

Definition taxable_persons : Relief.Person :=
  persons [("employment_income", column gross taxables);
           ("employment_deductions", column deduction taxables);
           ("savings_interest_income", column gross taxables);
           ("ISA_interest_income", column deduction taxables);
           ("dividend_income", column gross taxables);
           ("deficiency_relief", column deduction taxables)].

Definition recipients : list Recipient :=
  [{| income := 100; maximum := 10 |}; {| income := 200; maximum := 10 |};
   {| income := 0; maximum := 10 |}; {| income := 50; maximum := 0 |}].

Definition recipient_inputs : BasicIncomeIndividual.Inputs :=
  {| BasicIncomeIndividual.total_income := column income recipients;
     BasicIncomeIndividual.bi_maximum := column maximum recipients;
     BasicIncomeIndividual.threshold := Float64.Fin 150;
     BasicIncomeIndividual.rate := Float64.Fin (1 # 10) |}.




(** Three benefit units, the second without members; only the first
    receives housing benefit. *)
Definition sparse_benunits : PensionCreditAmounts.BenUnit :=
  {| PensionCreditAmounts.population :=
       {| count := 3; members_entity_id := [0; 0; 2; 2]%nat |};
     PensionCreditAmounts.var := fun _ => FloatArray (map Float64.Fin [100; 0; 0]%Q);
     PensionCreditAmounts.members := fun _ => BoolArray [true; false; false; false];
     PensionCreditAmounts.add := fun _ => FloatArray [];
     PensionCreditAmounts.aggr := fun _ => FloatArray [] |}.

End Examples3.

(** * Properties *)

Import Microsim Examples.

(** ** The monad *)

Lemma bind_ret_l {A B} (a : A) (k : A -> M B) : Py.bind (ret a) k = k a.
Proof. unfold Py.bind, ret. destruct (k a) as [l r]. reflexivity. Qed.

Lemma bind_raise_l {A B} (l : list event) (e : exn) (k : A -> M B) :
  Py.bind (l, Raise e) k = (l, Raise e).
Proof. reflexivity. Qed.

Lemma bind_lift_ret {A B} (a : A) (k : A -> M B) : Py.bind (lift (Ret a)) k = k a.
Proof. apply bind_ret_l. Qed.

Lemma bind_lift_raise {A B} (e : exn) (k : A -> M B) :
  Py.bind (lift (Raise e)) k = ([], Raise e).
Proof. reflexivity. Qed.

Lemma M_eta {A} (m : M A) : m = (log m, outcome m).
Proof. destruct m; reflexivity. Qed.

Lemma try_except_ok {A} (m : M A) (h : exn -> M A) (a : A) :
  outcome m = Ret a -> try_except m h = m.
Proof. destruct m as [l [e | x]]; simpl; intros H; [discriminate | reflexivity]. Qed.

Lemma try_except_caught {A} (m : M A) (h : exn -> M A) (e : exn) :
  outcome m = Raise e ->
  try_except m h = (log m ++ log (h e), outcome (h e)).
Proof.
  destruct m as [l [e' | x]]; simpl; intros H; [| discriminate].
  injection H as ->. destruct (h e); reflexivity.
Qed.

(** ** [calc]: the order of the resolution attempts *)

Section Resolution.

Variables (sim : Simulation) (var : string) (p : period).
Variable vm : option VariableMeta.

Let direct := attempt_direct sim var p vm.
Let added := attempt_add sim var p vm.
Let divided := attempt_divide sim var p.

Ltac resolve_cases :=
  unfold resolve; fold direct added divided;
  destruct direct as [l1 [x1 | x1]], added as [l2 [x2 | x2]],
           divided as [l3 [x3 | x3]];
  simpl in *; intros; simplify_eq; rewrite ?app_nil_r; reflexivity.

Lemma resolve_direct a :
  outcome direct = Ret a -> resolve sim var p vm = direct.
Proof. resolve_cases. Qed.

Lemma resolve_add e a :
  outcome direct = Raise e -> outcome added = Ret a ->
  resolve sim var p vm = (log direct ++ log added, Ret a).
Proof. resolve_cases. Qed.

Lemma resolve_divide e e2 a :
  outcome direct = Raise e -> outcome added = Raise e2 ->
  outcome divided = Ret a ->
  resolve sim var p vm = (log direct ++ log added ++ log divided, Ret a).
Proof. resolve_cases. Qed.

Lemma resolve_all_fail e e2 e3 :
  outcome direct = Raise e -> outcome added = Raise e2 ->
  outcome divided = Raise e3 ->
  resolve sim var p vm = (log direct ++ log added ++ log divided, Raise e).
Proof. resolve_cases. Qed.

End Resolution.

(** *** What [calc] does after the resolution asks nothing of the engine *)

Lemma log_bind {A B} (m : M A) (k : A -> M B) :
  log m = [] -> (forall a, log (k a) = []) -> log (Py.bind m k) = [].
Proof.
  destruct m as [l [e | a]]; cbn; intros -> Hk; [reflexivity |].
  specialize (Hk a). destruct (k a) as [l' r]. exact Hk.
Qed.

Lemma log_lift {A} (r : res A) : log (lift r) = [].
Proof. reflexivity. Qed.

Ltac silent :=
  repeat first
    [ reflexivity
    | apply log_lift
    | apply log_bind; [| intros ?]
    | match goal with
      | |- log (if ?c then _ else _) = [] => destruct c
      | |- log (match ?x with _ => _ end) = [] => destruct x
      end ].

Lemma map_to_rec_log (n : nat) :
  forall (self : Microsimulation) (arr : option ndarray) (e t : string)
         (how : option string),
    log (map_to_rec n self arr e t how) = [].
Proof.
  induction n as [| n IH]; intros self arr e t how; [reflexivity |].
  cbn [map_to_rec].
  apply log_bind; [reflexivity | intros entity_pop].
  apply log_bind; [reflexivity | intros target_pop].
  destruct (String.eqb e "person" && str_in t ["benunit"; "household"]).
  { destruct (truthy how && negb (str_in (how_or_sum how) valid_how)); silent. }
  destruct (str_in e ["benunit"; "household"] && String.eqb t "person").
  { destruct (negb (truthy how)); [silent |].
    destruct (how_is how "mean"); silent. }
  destruct (String.eqb e t); [reflexivity |].
  apply log_bind; [apply IH | intros inner; apply IH].
Qed.

Lemma dict_get_log {V} (d : gmap string V) (k : string) : log (dict_get d k) = [].
Proof. unfold dict_get. destruct (d !! k); reflexivity. Qed.

Lemma postprocess_log (vm : VariableMeta) (arr : ndarray) :
  log (postprocess vm arr) = [].
Proof. unfold postprocess. silent. Qed.

Lemma deliver_log (self : Microsimulation) (vm : VariableMeta) (arr : ndarray)
  (weighted : bool) (target how : option string) :
  log (deliver self vm arr weighted target how) = [].
Proof.
  unfold deliver. apply log_bind; [apply postprocess_log | intros rounded].
  destruct (negb weighted); [reflexivity |].
  destruct target as [t |].
  - destruct (truthy (Some t)).
    + apply log_bind; [apply map_to_rec_log | intros mapped].
      apply log_bind; [apply dict_get_log | reflexivity].
    + apply log_bind; [apply dict_get_log | reflexivity].
  - apply log_bind; [apply dict_get_log | reflexivity].
Qed.

(** [calc] is the resolution followed by the delivery of its array. *)
Lemma calc_deliver (self : Microsimulation) (var : string) (p : option period)
  (weighted : bool) (target how : option string) :
  calc self var p weighted target how
  = (do arr <- resolve (simulation self) var
                 (match p with None => PInt (year self) | Some q => q end)
                 (variables (simulation self) !! var) ;
     do vm <- local "var_metadata" (variables (simulation self) !! var) ;
     deliver self vm arr weighted target how).
Proof. reflexivity. Qed.

Lemma calc_resolved (self : Microsimulation) (var : string) (p : option period)
  (weighted : bool) (target how : option string) (l : list event) (a : ndarray) :
  resolve (simulation self) var
    (match p with None => PInt (year self) | Some q => q end)
    (variables (simulation self) !! var) = (l, Ret a) ->
  log (calc self var p weighted target how) = l /\
  outcome (calc self var p weighted target how)
  = match variables (simulation self) !! var with
    | Some m => outcome (deliver self m a weighted target how)
    | None => Raise (UnboundLocalError "var_metadata")
    end.
Proof.
  intros Hr. rewrite calc_deliver, Hr. unfold Py.bind at 1.
  destruct (variables (simulation self) !! var) as [m |]; cbn [local].
  - pose proof (deliver_log self m a weighted target how) as Hl.
    unfold Py.bind, ret.
    destruct (deliver self m a weighted target how) as [l' r]. cbn in Hl. subst l'.
    cbn. rewrite app_nil_r. split; reflexivity.
  - cbn. rewrite app_nil_r. split; reflexivity.
Qed.

Lemma attempt_direct_known (sim : Simulation) (var : string) (p : period)
  (vm : option VariableMeta) (a : ndarray) :
  outcome (attempt_direct sim var p vm) = Ret a ->
  exists m, vm = Some m /\ attempt_direct sim var p vm = ([EvCalculate var p], Ret a).
Proof.
  unfold attempt_direct. destruct vm as [m |]; [| discriminate].
  cbn. destruct (calculate sim var p) as [e | x]; cbn; [discriminate |].
  intros [= ->]. eauto.
Qed.

Lemma attempt_add_known (sim : Simulation) (var : string) (p : period)
  (vm : option VariableMeta) (a : ndarray) :
  outcome (attempt_add sim var p vm) = Ret a ->
  exists m, vm = Some m /\ log (attempt_add sim var p vm) = [EvCalculateAdd var p].
Proof.
  unfold attempt_add. cbn. destruct (calculate_add sim var p) as [e | x]; cbn;
    [discriminate |].
  destruct vm as [m |]; cbn; [| discriminate]. intros _. exists m. split; [reflexivity |].
  destruct (decide (value_type m = bool_t)); [| reflexivity].
  destruct (ge_scalar x 52); reflexivity.
Qed.

Lemma attempt_add_log (sim : Simulation) (var : string) (p : period)
  (vm : option VariableMeta) :
  log (attempt_add sim var p vm) = [EvCalculateAdd var p].
Proof.
  unfold attempt_add. cbn. destruct (calculate_add sim var p) as [e | x]; cbn;
    [reflexivity |].
  destruct vm as [m |]; cbn; [| reflexivity].
  destruct (decide (value_type m = bool_t)); [| reflexivity].
  destruct (ge_scalar x 52); reflexivity.
Qed.

Lemma attempt_divide_log (sim : Simulation) (var : string) (p : period) :
  log (attempt_divide sim var p) = [EvCalculateDivide var p].
Proof.
  unfold attempt_divide. cbn. destruct (calculate_divide sim var p); reflexivity.
Qed.

Lemma attempt_direct_log (sim : Simulation) (var : string) (p : period)
  (vm : option VariableMeta) :
  log (attempt_direct sim var p vm)
  = match vm with Some _ => [EvCalculate var p] | None => [] end.
Proof.
  unfold attempt_direct. destruct vm; [| reflexivity].
  cbn. destruct (calculate sim var p); reflexivity.
Qed.

(** C1 (as amended).  Every [calc] request tries the direct calculation,
    then [calculate_add], then [calculate_divide], and stops at the first
    attempt that succeeds: the engine is asked nothing after it, and what
    [calc] returns is made of the array of that attempt.  When all three
    fail, the exception that reaches the caller is the one of the first,
    direct attempt ([raise e]), after all three attempts have been made in
    order.  (The direct attempt of a name that is not a variable fails on
    the lookup, before the engine is asked.) *)
Theorem calc_resolution_priority (self : Microsimulation) (var : string)
  (p : option period) (weighted : bool) (target how : option string) :
  let sim := simulation self in
  let p' := match p with None => PInt (year self) | Some q => q end in
  let vm := variables sim !! var in
  let direct := attempt_direct sim var p' vm in
  let added := attempt_add sim var p' vm in
  let divided := attempt_divide sim var p' in
  let request := calc self var p weighted target how in
  (forall a, outcome direct = Ret a ->
     exists m, vm = Some m /\
       log request = [EvCalculate var p'] /\
       outcome request = outcome (deliver self m a weighted target how)) /\
  (forall e a, outcome direct = Raise e -> outcome added = Ret a ->
     exists m, vm = Some m /\
       log request = [EvCalculate var p'; EvCalculateAdd var p'] /\
       outcome request = outcome (deliver self m a weighted target how)) /\
  (forall e e2 a, outcome direct = Raise e -> outcome added = Raise e2 ->
     outcome divided = Ret a ->
     log request = log direct ++ [EvCalculateAdd var p'; EvCalculateDivide var p'] /\
     outcome request
     = match vm with
       | Some m => outcome (deliver self m a weighted target how)
       | None => Raise (UnboundLocalError "var_metadata")
       end) /\
  (forall e e2 e3, outcome direct = Raise e -> outcome added = Raise e2 ->
     outcome divided = Raise e3 ->
     calc self var p weighted target how
     = (log direct ++ log added ++ log divided, Raise e)) /\
  log direct = match vm with Some _ => [EvCalculate var p'] | None => [] end.
Proof.
  intros sim p' vm direct added divided request.
  subst direct added divided request.
  split; [| split; [| split; [| split]]].
  - intros a Hd.
    destruct (attempt_direct_known sim var p' vm a Hd) as (m & Hm & Hlog).
    exists m. split; [exact Hm |].
    destruct (calc_resolved self var p weighted target how [EvCalculate var p'] a)
      as [Hl Ho].
    { fold sim p' vm. rewrite (resolve_direct sim var p' vm a Hd). exact Hlog. }
    fold sim vm in Ho. rewrite Hm in Ho. split; assumption.
  - intros e a Hd Ha.
    destruct (attempt_add_known sim var p' vm a Ha) as (m & Hm & Hlog).
    exists m. split; [exact Hm |].
    destruct (calc_resolved self var p weighted target how
                [EvCalculate var p'; EvCalculateAdd var p'] a) as [Hl Ho].
    { fold sim p' vm. rewrite (resolve_add sim var p' vm e a Hd Ha).
      rewrite Hlog, attempt_direct_log, Hm. reflexivity. }
    fold sim vm in Ho. rewrite Hm in Ho. split; assumption.
  - intros e e2 a Hd Ha Hv.
    apply (calc_resolved self var p weighted target how
             (log (attempt_direct sim var p' vm)
              ++ [EvCalculateAdd var p'; EvCalculateDivide var p']) a).
    fold sim p' vm. rewrite (resolve_divide sim var p' vm e e2 a Hd Ha Hv).
    rewrite attempt_add_log, attempt_divide_log. reflexivity.
  - intros e e2 e3 Hd Ha Hv. unfold calc. fold sim p' vm.
    rewrite (resolve_all_fail sim var p' vm e e2 e3 Hd Ha Hv). reflexivity.
  - apply attempt_direct_log.
Qed.

Lemma calc_resolution_priority_witness :
  (calc sim_values "wage" None false None None
   = ([EvCalculate "wage" (PInt 2020)],
      Ret (RawArray (FloatArray (map Float64.Fin [0; 1; 2; 3]%Q))))) /\
  (calc (monthly_indicator [repeat true 60; repeat true 11]) "in_work"
        None false None None
   = ([EvCalculate "in_work" (PInt 2020); EvCalculateAdd "in_work" (PInt 2020)],
      Ret (RawArray (BoolArray [true; false])))) /\
  (calc Examples2.sim_divided "v" None false None None
   = ([EvCalculate "v" (PInt 2020); EvCalculateAdd "v" (PInt 2020);
       EvCalculateDivide "v" (PInt 2020)],
      Ret (RawArray (FloatArray (map Float64.Fin [1; 2; 3; 4]%Q))))) /\
  (calc sim_all_fail "v" None true None None
   = ([EvCalculate "v" (PInt 2020); EvCalculateAdd "v" (PInt 2020);
       EvCalculateDivide "v" (PInt 2020)], Raise (EngineError "direct"))).
Proof.
  split; [| split; [| split]].
  - destruct (proj1 (calc_resolution_priority sim_values "wage" None false None None)
                (FloatArray [Float64.Fin (5 # 1000); Float64.Fin 1;
                             Float64.Fin 2; Float64.Fin 3]) eq_refl)
      as (m & Hm & Hl & Ho).
    rewrite (M_eta (calc _ _ _ _ _ _)), Hl, Ho.
    vm_compute in Hm. injection Hm as <-. reflexivity.
  - destruct (proj1 (proj2 (calc_resolution_priority
                              (monthly_indicator [repeat true 60; repeat true 11])
                              "in_work" None false None None))
                (EngineError "period mismatch") (BoolArray [true; false])
                eq_refl eq_refl)
      as (m & Hm & Hl & Ho).
    rewrite (M_eta (calc _ _ _ _ _ _)), Hl, Ho.
    vm_compute in Hm. injection Hm as <-. reflexivity.
  - destruct (proj1 (proj2 (proj2 (calc_resolution_priority Examples2.sim_divided
                                     "v" None false None None)))
                (EngineError "direct") (EngineError "add")
                (FloatArray (map Float64.Fin [1; 2; 3; 4]%Q))
                eq_refl eq_refl eq_refl)
      as (Hl & Ho).
    rewrite (M_eta (calc _ _ _ _ _ _)), Hl, Ho. reflexivity.
  - apply (proj1 (proj2 (proj2 (proj2
             (calc_resolution_priority sim_all_fail "v" None true None None))))
             (EngineError "direct") (EngineError "add") (EngineError "divide"));
      reflexivity.
Defined.

(** C1 as stated fails: with the three attempts failing with three
    different exceptions, the caller receives the failure of the direct
    attempt, not the failure of the divide attempt. *)
Lemma calc_surfaces_first_failure_not_last :
  outcome (attempt_divide (simulation sim_all_fail) "v" (PInt 2020))
  = Raise (EngineError "divide") /\
  outcome (calc sim_all_fail "v" None true None None)
  = Raise (EngineError "direct") /\
  outcome (calc sim_all_fail "v" None true None None)
  <> Raise (EngineError "divide").
Proof. repeat split; vm_compute; congruence. Qed.

(** ** [calc]: the boolean threshold of the sum transform *)

Lemma geb_of_Z (z c : Z) :
  Float64.geb (Float64.of_Z z) (Float64.of_Z c) = (c <=? z)%Z.
Proof.
  unfold Float64.geb, Float64.leb, Float64.of_Z, Qcompare, inject_Z. simpl.
  rewrite !Z.mul_1_r. unfold Z.leb. destruct (c ?= z)%Z; reflexivity.
Qed.

Lemma ge_scalar_counts (zs : list Z) (c : Z) :
  ge_scalar (IntArray zs) c = Ret (BoolArray (map (fun z => (c <=? z)%Z) zs)).
Proof.
  unfold ge_scalar. simpl. rewrite map_map. do 2 f_equal.
  apply map_ext. intros z. apply geb_of_Z.
Qed.

(** Whatever the number of subperiods, a boolean variable resolved by the
    sum transform is true exactly for the units whose count is at least 52. *)
Lemma attempt_add_bool_threshold (sim : Simulation) (var : string) (p : period)
  (m : VariableMeta) (counts : list Z) :
  value_type m = bool_t ->
  calculate_add sim var p = Ret (IntArray counts) ->
  attempt_add sim var p (Some m)
  = ([EvCalculateAdd var p], Ret (BoolArray (map (fun z => (52 <=? z)%Z) counts))).
Proof.
  intros Hb Hadd. unfold attempt_add. rewrite Hadd. simpl.
  destruct (decide (value_type m = bool_t)) as [_ | Hn]; [| contradiction].
  simpl. rewrite ge_scalar_counts. reflexivity.
Qed.

(** C2, on the code.  A monthly indicator requested for the year is
    resolved by the sum transform; the person for whom it is true in all
    twelve months gets [False], like the person for whom it is true in
    eleven: the count is compared with the constant 52, not with the
    number of subperiods. *)
Theorem calc_monthly_indicator_true_all_year_is_false :
  calc (monthly_indicator [repeat true 12; repeat true 11 ++ [false]])
       "in_work" None false None None
  = ([EvCalculate "in_work" (PInt 2020); EvCalculateAdd "in_work" (PInt 2020)],
     Ret (RawArray (BoolArray [false; false]))).
Proof. vm_compute. reflexivity. Qed.

(** ** [map_to] *)

Lemma map_to_rec_S (n : nat) (self : Microsimulation) (arr : option ndarray)
  (entity target_entity : string) (how : option string) :
  map_to_rec (S n) self arr entity target_entity how =
  (do entity_pop <- lift (populations_get (populations (simulation self)) entity) ;
   do target_pop <- lift (populations_get (populations (simulation self)) target_entity) ;
   if String.eqb entity "person" && str_in target_entity ["benunit"; "household"]
   then
     if truthy how && negb (str_in (how_or_sum how) valid_how)
     then raise (ValueError "Not a valid function.")
     else
       do f <- lift (pop_getattribute target_pop (how_or_sum how)) ;
       do a <- lift (as_array arr) ;
       do r <- lift (f a) ;
       ret (Some r)
   else if str_in entity ["benunit"; "household"] && String.eqb target_entity "person"
   then
     if negb (truthy how)
     then
       do a <- lift (as_array arr) ;
       do r <- lift (pop_project entity_pop a) ;
       ret (Some r)
     else if how_is how "mean"
     then
       do a <- lift (as_array arr) ;
       do n <- lift (pop_nb_persons entity_pop) ;
       do q <- lift (true_divide a n) ;
       do r <- lift (pop_project entity_pop q) ;
       ret (Some r)
     else ret None
   else if String.eqb entity target_entity
   then ret arr
   else
     do inner <- map_to_rec n self arr entity "person" (Some "mean") ;
     map_to_rec n self inner "person" target_entity (Some "sum")).
Proof. reflexivity. Qed.

Lemma populations_get_inv (ps : Populations) (name : string) (pop : Population) :
  populations_get ps name = Ret pop ->
  (name = "person" /\ pop = PersonPopulation (person_count ps)) \/
  (name = "benunit" /\ pop = GroupPop (benunit ps)) \/
  (name = "household" /\ pop = GroupPop (household ps)).
Proof.
  unfold populations_get.
  destruct (String.eqb_spec name "person") as [-> | _];
    [intros [= <-]; auto |].
  destruct (String.eqb_spec name "benunit") as [-> | _];
    [intros [= <-]; auto |].
  destruct (String.eqb_spec name "household") as [-> | _];
    [intros [= <-]; auto | discriminate].
Qed.

Lemma group_entity_inv (ps : Populations) (name : string) (g : GroupPopulation) :
  populations_get ps name = Ret (GroupPop g) ->
  (name = "benunit" /\ g = benunit ps) \/ (name = "household" /\ g = household ps).
Proof.
  intros H. destruct (populations_get_inv _ _ _ H) as [[_ ?] | [[? ?] | [? ?]]];
    simplify_eq; auto.
Qed.

Ltac map_to_step :=
  rewrite map_to_rec_S; cbn -[map_to_rec]; rewrite ?bind_ret_l.

(** C8.  For an entity [e] of the simulation, [map_to(arr, e, e, how)]
    returns [arr] itself (also when it is [None]) whatever [how] is: the
    identity branch neither validates nor applies [how], raises nothing and
    calls nothing. *)
Theorem map_to_identity (self : Microsimulation) (arr : option ndarray)
  (e : string) (how : option string) (pop : Population) :
  populations_get (populations (simulation self)) e = Ret pop ->
  map_to self arr e e how = ret arr.
Proof.
  intros H. unfold map_to. change recursion_limit with (S 999).
  destruct (populations_get_inv _ _ _ H) as [[-> _] | [[-> _] | [-> _]]];
    map_to_step; reflexivity.
Qed.

Lemma map_to_identity_witness :
  map_to sim_values (Some (IntArray [1; 2; 3]%Z)) "benunit" "benunit"
         (Some "no such operator")
  = ret (Some (IntArray [1; 2; 3]%Z)).
Proof.
  apply (map_to_identity sim_values _ "benunit" _ (GroupPop (benunit pops))).
  reflexivity.
Defined.

Ltac map_to_cbn :=
  cbn -[map_to_rec true_divide gp_project gp_sum gp_nb_persons].

(** The first hop: [how="mean"] from a group entity to the persons. *)
Lemma map_to_rec_mean (n : nat) (self : Microsimulation) (a : ndarray)
  (e : string) (source : GroupPopulation) :
  populations_get (populations (simulation self)) e = Ret (GroupPop source) ->
  map_to_rec (S n) self (Some a) e "person" (Some "mean")
  = (do mean <- lift (true_divide a (gp_nb_persons source)) ;
     do persons <- lift (gp_project source mean) ;
     ret (Some persons)).
Proof.
  intros He.
  destruct (group_entity_inv _ _ _ He) as [[-> ->] | [-> ->]];
    rewrite map_to_rec_S; map_to_cbn;
    (destruct (true_divide a _) as [x | mean]; map_to_cbn; [reflexivity |]);
    destruct (gp_project _ mean); reflexivity.
Qed.

(** The second hop: [how="sum"] from the persons to a group entity. *)
Lemma map_to_rec_sum (n : nat) (self : Microsimulation) (a : ndarray)
  (t : string) (target : GroupPopulation) :
  populations_get (populations (simulation self)) t = Ret (GroupPop target) ->
  map_to_rec (S n) self (Some a) "person" t (Some "sum")
  = (do total <- lift (gp_sum target a) ; ret (Some total)).
Proof.
  intros Ht.
  destruct (group_entity_inv _ _ _ Ht) as [[-> ->] | [-> ->]];
    rewrite map_to_rec_S; map_to_cbn;
    destruct (gp_sum _ a); reflexivity.
Qed.

Lemma map_to_rec_two_hop (n : nat) (self : Microsimulation) (a : ndarray)
  (e t : string) (how : option string) (source target : GroupPopulation) :
  populations_get (populations (simulation self)) e = Ret (GroupPop source) ->
  populations_get (populations (simulation self)) t = Ret (GroupPop target) ->
  e <> t ->
  map_to_rec (S (S n)) self (Some a) e t how = two_hop source target a.
Proof.
  intros He Ht Hne. unfold two_hop.
  assert (C1 : String.eqb e "person" && str_in t ["benunit"; "household"] = false)
    by (destruct (group_entity_inv _ _ _ He) as [[-> _] | [-> _]]; reflexivity).
  assert (C2 : str_in e ["benunit"; "household"] && String.eqb t "person" = false)
    by (destruct (group_entity_inv _ _ _ Ht) as [[-> _] | [-> _]];
        rewrite andb_false_r; reflexivity).
  assert (C3 : String.eqb e t = false) by (apply String.eqb_neq; assumption).
  rewrite map_to_rec_S, He, Ht, !bind_lift_ret, C1, C2, C3.
  rewrite (map_to_rec_mean n self a e source He).
  destruct (true_divide a (gp_nb_persons source)) as [x | mean]; [reflexivity |].
  rewrite !bind_lift_ret.
  destruct (gp_project source mean) as [x | persons]; [reflexivity |].
  rewrite !bind_lift_ret, bind_ret_l.
  apply (map_to_rec_sum n self persons t target Ht).
Qed.

(** C6.  For two different group entities of the simulation (benefit unit
    to household, household to benefit unit: the pairs that are neither
    person to group, nor group to person, nor identical), [map_to] is the
    person-mediated transform, whatever [how] is: the source array divided
    by the person count of each source group and projected on the persons
    (the result of [how="mean"]), then summed per target group (the result
    of [how="sum"]). *)
Theorem map_to_two_hop (self : Microsimulation) (a : ndarray) (e t : string)
  (how : option string) (source target : GroupPopulation) :
  populations_get (populations (simulation self)) e = Ret (GroupPop source) ->
  populations_get (populations (simulation self)) t = Ret (GroupPop target) ->
  e <> t ->
  map_to self (Some a) e t how = two_hop source target a.
Proof.
  intros He Ht Hne. unfold map_to. change recursion_limit with (S (S 998)).
  apply map_to_rec_two_hop; assumption.
Qed.

Lemma map_to_two_hop_witness :
  map_to sim_values
         (Some (FloatArray [Float64.Fin (123 # 100); Float64.Fin 10; Float64.Fin 7]))
         "benunit" "household" (Some "max")
  = ret (Some (FloatArray [Float64.Fin (1123 # 100); Float64.Fin 7])).
Proof.
  rewrite (map_to_two_hop sim_values _ "benunit" "household" (Some "max")
             (benunit pops) (household pops)); [reflexivity .. | discriminate].
Defined.

(** Person to group: a non-empty [how] outside the six reduction names is
    rejected. *)
Lemma map_to_person_to_group_rejects (self : Microsimulation)
  (arr : option ndarray) (t s : string) (target : GroupPopulation) :
  populations_get (populations (simulation self)) t = Ret (GroupPop target) ->
  s <> EmptyString -> str_in s valid_how = false ->
  map_to self arr "person" t (Some s) = raise (ValueError "Not a valid function.").
Proof.
  intros Ht Hs Hbad. unfold map_to. change recursion_limit with (S 999).
  assert (Htruthy : truthy (Some s) = true)
    by (simpl; apply negb_true_iff, String.eqb_neq; assumption).
  rewrite map_to_rec_S, Ht. unfold how_or_sum. rewrite Htruthy, Hbad.
  destruct (group_entity_inv _ _ _ Ht) as [[-> _] | [-> _]]; reflexivity.
Qed.

(** Group to person: a non-empty [how] other than ["mean"] matches neither
    [if] of the branch, and the function returns [None] without raising. *)
Lemma map_to_group_to_person_unvalidated (self : Microsimulation)
  (arr : option ndarray) (e s : string) (source : GroupPopulation) :
  populations_get (populations (simulation self)) e = Ret (GroupPop source) ->
  s <> EmptyString -> s <> "mean" ->
  map_to self arr e "person" (Some s) = ret None.
Proof.
  intros He Hs Hmean. unfold map_to. change recursion_limit with (S 999).
  assert (Htruthy : truthy (Some s) = true)
    by (simpl; apply negb_true_iff, String.eqb_neq; assumption).
  assert (Hnot : how_is (Some s) "mean" = false)
    by (simpl; apply String.eqb_neq; assumption).
  rewrite map_to_rec_S, He, Htruthy, Hnot.
  destruct (group_entity_inv _ _ _ He) as [[-> _] | [-> _]]; reflexivity.
Qed.

(** C4, on the code.  A benefit-unit variable mapped to persons with
    [how="sum"], an operator that the branch does not support: nothing is
    raised, [map_to] returns [None] and [calc] wraps it in a [MicroSeries];
    the same [how] outside the allowed set is rejected from person to
    group. *)
Theorem calc_group_to_person_unsupported_how_is_not_rejected :
  calc sim_values "rent" None true (Some "person") (Some "sum")
  = ([EvCalculate "rent" (PInt 2020)],
     Ret (MicroSeries None (FloatArray (map Float64.of_Z [1; 1; 1; 1]%Z)))) /\
  calc sim_values "wage" None true (Some "benunit") (Some "mean")
  = ([EvCalculate "wage" (PInt 2020)],
     Raise (ValueError "Not a valid function.")).
Proof. split; vm_compute; reflexivity. Qed.

(** ** [calc]: rounding of float variables *)

Lemma calc_unfold (self : Microsimulation) (var : string) (p : option period)
  (weighted : bool) (target how : option string) (m : VariableMeta)
  (l : list event) (arr : ndarray) :
  variables (simulation self) !! var = Some m ->
  resolve (simulation self) var
    (match p with None => PInt (year self) | Some q => q end) (Some m)
  = (l, Ret arr) ->
  calc self var p weighted target how =
  (let '(l', r) :=
    do arr <- postprocess m arr ;
    if negb weighted then ret (RawArray arr)
    else
      match target with
      | Some t =>
          if truthy target then
            do mapped <- map_to self (Some arr) (entity_key m) t how ;
            do w <- dict_get (entity_weights self) t ;
            ret (MicroSeries mapped w)
          else
            do w <- dict_get (entity_weights self) (entity_key m) ;
            ret (MicroSeries (Some arr) w)
      | None =>
          do w <- dict_get (entity_weights self) (entity_key m) ;
          ret (MicroSeries (Some arr) w)
      end
   in (l ++ l', r)).
Proof.
  intros Hm Hr. unfold calc. rewrite Hm, Hr. unfold Py.bind at 1.
  unfold local. rewrite bind_ret_l. reflexivity.
Qed.

Lemma postprocess_float (m : VariableMeta) (xs : list Float64.t) :
  value_type m = float_t ->
  postprocess m (FloatArray xs) = ret (FloatArray (map Float64.round2 xs)).
Proof.
  intros Hf. unfold postprocess. rewrite Hf. reflexivity.
Qed.

(** [np.rint] is within one half of its argument. *)
Lemma rint_nearest (q : Q) :
  (- (1 # 2) <= q - inject_Z (Float64.rint q) <= 1 # 2)%Q.
Proof.
  unfold Float64.rint.
  pose proof (Qfloor_le q) as Hlo. pose proof (Qlt_floor q) as Hhi.
  rewrite inject_Z_plus in Hhi. change (inject_Z 1) with 1%Q in Hhi.
  destruct (q - inject_Z (Qfloor q) ?= 1 # 2)%Q eqn:Hc.
  - apply Qeq_alt in Hc.
    destruct (Z.even (Qfloor q));
      rewrite ?inject_Z_plus; change (inject_Z 1) with 1%Q; split; lra.
  - apply Qlt_alt in Hc. split; lra.
  - apply Qgt_alt in Hc. rewrite inject_Z_plus. change (inject_Z 1) with 1%Q.
    split; lra.
Qed.

(** [round2] gives an infinity when the product overflows, and otherwise
    the float32 nearest to a whole number of hundredths, the one nearest to
    the float32 product. *)
Lemma round2_hundredths (q : Q) :
  Float64.round2 (Float64.Fin q) = Float64.float32 (q * 100) /\
  Float64.is_finite (Float64.float32 (q * 100)) = false \/
  exists scaled k,
    Float64.float32 (q * 100) = Float64.Fin scaled /\
    (- (1 # 2) <= scaled - inject_Z k <= 1 # 2)%Q /\
    Float64.round2 (Float64.Fin q) = Float64.float32 (inject_Z k / 100).
Proof.
  unfold Float64.round2.
  destruct (Float64.float32 (q * 100)) as [scaled | | |] eqn:E;
    [right | left; split; reflexivity ..].
  exists scaled, (Float64.rint scaled).
  split; [reflexivity |]. split; [apply rint_nearest | reflexivity].
Qed.

(** C5 (as amended).  For a float-typed variable, [calc] applies
    [arr.round(2)] to the resolved array before anything else: the rounded
    values are the raw array when [weighted] is false (whatever [map_to]
    is) and the values of the [MicroSeries] of the variable's entity when
    no [map_to] is given; with a [map_to], the entity transform is applied
    to the rounded array and its result is not rounded again. *)
Theorem calc_float_rounded (self : Microsimulation) (var : string)
  (p : option period) (target how : option string) (m : VariableMeta)
  (l : list event) (xs : list Float64.t) :
  variables (simulation self) !! var = Some m ->
  value_type m = float_t ->
  resolve (simulation self) var
    (match p with None => PInt (year self) | Some q => q end) (Some m)
  = (l, Ret (FloatArray xs)) ->
  let rounded := FloatArray (map Float64.round2 xs) in
  calc self var p false target how = (l, Ret (RawArray rounded)) /\
  (forall w, truthy target = false ->
     entity_weights self !! entity_key m = Some w ->
     calc self var p true target how = (l, Ret (MicroSeries (Some rounded) w))) /\
  (forall t, target = Some t -> truthy target = true ->
     log (calc self var p true target how) = l /\
     outcome (calc self var p true target how)
     = outcome (do mapped <- map_to self (Some rounded) (entity_key m) t how ;
                do w <- dict_get (entity_weights self) t ;
                ret (MicroSeries mapped w))).
Proof.
  intros Hm Hf Hr rounded.
  split; [| split].
  - rewrite (calc_unfold _ _ _ _ _ _ m l (FloatArray xs) Hm Hr).
    rewrite (postprocess_float m xs Hf), bind_ret_l. cbn. rewrite app_nil_r.
    reflexivity.
  - intros w Ht Hw.
    rewrite (calc_unfold _ _ _ _ _ _ m l (FloatArray xs) Hm Hr).
    rewrite (postprocess_float m xs Hf), bind_ret_l. cbn [negb].
    destruct target as [t |]; rewrite ?Ht; unfold dict_get; rewrite Hw; cbn;
      rewrite app_nil_r; reflexivity.
  - intros t -> Ht.
    rewrite (calc_unfold _ _ _ _ _ _ m l (FloatArray xs) Hm Hr).
    rewrite (postprocess_float m xs Hf), bind_ret_l. cbn [negb]. rewrite Ht.
    fold rounded.
    assert (Hl : log (do mapped <- map_to self (Some rounded) (entity_key m) t how ;
                      do w <- dict_get (entity_weights self) t ;
                      ret (MicroSeries mapped w)) = []).
    { apply log_bind; [apply map_to_rec_log | intros mapped].
      apply log_bind; [apply dict_get_log | reflexivity]. }
    destruct (do mapped <- map_to self (Some rounded) (entity_key m) t how ;
              do w <- dict_get (entity_weights self) t ;
              ret (MicroSeries mapped w)) as [l' r].
    cbn in Hl. subst l'. cbn. rewrite app_nil_r. split; reflexivity.
Qed.

Lemma calc_float_rounded_witness :
  calc sim_values "rent" None false None None
  = ([EvCalculate "rent" (PInt 2020)],
     Ret (RawArray (FloatArray [Float64.Fin (2579497 # 2097152); Float64.Fin 10;
                                Float64.Fin 7]))) /\
  calc sim_values "rent" None true None None
  = ([EvCalculate "rent" (PInt 2020)],
     Ret (MicroSeries (Some (FloatArray [Float64.Fin (2579497 # 2097152);
                                         Float64.Fin 10; Float64.Fin 7]))
                      (FloatArray (map Float64.of_Z [1; 1; 1]%Z)))) /\
  calc sim_values "rent" None true (Some "person") (Some "mean")
  = ([EvCalculate "rent" (PInt 2020)],
     Ret (MicroSeries (Some (FloatArray [Float64.Fin (2579497 # 4194304);
                                         Float64.Fin (2579497 # 4194304);
                                         Float64.Fin 10; Float64.Fin 7]))
                      (FloatArray (map Float64.of_Z [1; 1; 1; 1]%Z)))).
Proof.
  pose proof (fun target how =>
                calc_float_rounded sim_values "rent" None target how
                  {| value_type := float_t; entity_key := "benunit" |}
                  [EvCalculate "rent" (PInt 2020)]
                  [Float64.Fin (1234 # 1000); Float64.Fin 10; Float64.Fin 7]
                  eq_refl eq_refl eq_refl) as H.
  split; [| split].
  - exact (proj1 (H None None)).
  - exact (proj1 (proj2 (H None None))
             (FloatArray (map Float64.of_Z [1; 1; 1]%Z)) eq_refl eq_refl).
  - destruct (proj2 (proj2 (H (Some "person") (Some "mean"))) "person"
                eq_refl eq_refl) as [Hl Ho].
    rewrite (M_eta (calc _ _ _ _ _ _)), Hl, Ho. reflexivity.
Defined.

(** C5 as stated fails: the engine computes 1.234 for the first benefit
    unit and [calc] returns 1.23 (the float32 nearest to it), as the raw
    array and in the weighted series. *)
Lemma calc_float_not_full_precision :
  calculate (simulation sim_values) "rent" (PInt 2020)
  = Ret (FloatArray [Float64.Fin (1234 # 1000); Float64.Fin 10; Float64.Fin 7]) /\
  outcome (calc sim_values "rent" None false None None)
  = Ret (RawArray (FloatArray [Float64.float32 (123 # 100); Float64.Fin 10;
                               Float64.Fin 7])) /\
  Float64.float32 (123 # 100) = Float64.Fin (2579497 # 2097152) /\
  ~ (1234 # 1000 == 2579497 # 2097152)%Q.
Proof. repeat split; try (vm_compute; reflexivity). intros H. discriminate H. Qed.

(** ** [load_dataset] *)

(** C7, on the code.  A dataset with the six relation arrays, which the
    system accepts, and [savings_income] for two periods, which it refuses:
    the load is not fatal (all eight pairs are offered in order and the
    simulation is returned) and exactly one warning follows the loop.  The
    loop has collected the refused name, once per period, but the warning
    is built from the length of that list only: its text stops after the
    colon and does not contain the name. *)
Theorem load_dataset_warning_omits_skipped_keys :
  load_dataset builder [] frs 2020
  = ([EvSetInput "P_person_id" "2020"; EvSetInput "B_benunit_id" "2020";
      EvSetInput "H_household_id" "2020"; EvSetInput "P_benunit_id" "2020";
      EvSetInput "P_household_id" "2020"; EvSetInput "P_role" "2020";
      EvSetInput "savings_income" "2019"; EvSetInput "savings_income" "2020";
      EvWarn "Incomplete initialisation: skipped 2 variables:"],
     Ret (storing_engine 94
            ["P_person_id"; "B_benunit_id"; "H_household_id"; "P_benunit_id";
             "P_household_id"; "P_role"])) /\
  List.filter is_warning (log (load_dataset builder [] frs 2020))
  = [EvWarn "Incomplete initialisation: skipped 2 variables:"] /\
  contains "savings_income" "Incomplete initialisation: skipped 2 variables:"
  = false /\
  (exists model,
     outcome (set_inputs (builder [] {| rel_person := IntArray [0; 1]%Z;
                                        rel_benunit := IntArray [0]%Z;
                                        rel_household := IntArray [0]%Z;
                                        rel_person_benunit := IntArray [0; 0]%Z;
                                        rel_person_household := IntArray [0; 0]%Z;
                                        rel_person_role := IntArray [0; 1]%Z |})
                         frs_data [])
     = Ret (model, ["savings_income"; "savings_income"])).
Proof.
  split; [vm_compute; reflexivity |].
  split; [vm_compute; reflexivity |].
  split; [vm_compute; reflexivity |].
  eexists. vm_compute. reflexivity.
Qed.

(** *** What the loop skips, in general *)

Section Refusals.

(** Which (variable, period) pairs the system takes, and a measure
    [holds n] of the simulations that can still be offered [n] inputs. *)
Variable accepts : string -> string -> bool.
Variable holds : nat -> Simulation -> Prop.

Hypothesis holds_offer : forall n s v p a,
  holds (S n) s ->
  if accepts v p
  then exists s', set_input s v p a = Ret s' /\ holds n s'
  else exists e, set_input s v p a = Raise e.

Hypothesis holds_fewer : forall n s, holds (S n) s -> holds n s.

Lemma set_inputs_periods_by_key (v : string) (periods : list (string * ndarray)) :
  forall (n : nat) (model : Simulation) (skipped : list string),
    holds (length periods + n) model ->
    exists model',
      set_inputs_periods model v periods skipped
      = (map (fun pa => EvSetInput v (fst pa)) periods,
         Ret (model',
              skipped ++ refused accepts (map (fun pa => (v, fst pa)) periods))) /\
      holds n model'.
Proof.
  induction periods as [| [p a] rest IH]; intros n model skipped Hh.
  - exists model. cbn. rewrite app_nil_r. split; [reflexivity | exact Hh].
  - cbn [set_inputs_periods]. cbn [length Nat.add] in Hh.
    pose proof (holds_offer _ model v p a Hh) as Hstep.
    unfold refused. cbn [map List.filter fst snd].
    destruct (accepts v p); cbn [negb].
    + destruct Hstep as (s' & -> & Hs').
      destruct (IH n s' skipped Hs') as (model' & Heq & Hm).
      exists model'. rewrite Heq. cbn. split; [reflexivity | exact Hm].
    + destruct Hstep as (e & ->).
      destruct (IH n model (skipped ++ [v]) (holds_fewer _ _ Hh))
        as (model' & Heq & Hm).
      exists model'. rewrite Heq. cbn. rewrite <- app_assoc.
      split; [reflexivity | exact Hm].
Qed.

Lemma set_inputs_by_key (data : Data) :
  forall (n : nat) (model : Simulation) (skipped : list string),
    holds (length (input_keys data) + n) model ->
    exists model',
      set_inputs model data skipped
      = (set_input_events (input_keys data),
         Ret (model', skipped ++ refused accepts (input_keys data))) /\
      holds n model'.
Proof.
  induction data as [| [v periods] rest IH]; intros n model skipped Hh.
  - exists model. cbn. rewrite app_nil_r. split; [reflexivity | exact Hh].
  - cbn [set_inputs].
    assert (Hlen : length (input_keys ((v, periods) :: rest))
                   = (length periods + length (input_keys rest))%nat).
    { unfold input_keys. cbn. rewrite length_app, length_map. reflexivity. }
    rewrite Hlen, <- Nat.add_assoc in Hh.
    destruct (set_inputs_periods_by_key v periods _ model skipped Hh)
      as (m1 & Heq1 & Hm1).
    destruct (IH n m1 (skipped ++ refused accepts (map (fun pa => (v, fst pa)) periods))
                Hm1) as (m2 & Heq2 & Hm2).
    exists m2. rewrite Heq1. cbn. rewrite Heq2.
    unfold set_input_events, input_keys, refused. cbn.
    rewrite !List.filter_app, !map_app, !map_map, <- app_assoc.
    split; [reflexivity | exact Hm2].
Qed.

(** X28.  What [load_dataset] skips and reports, for a system whose
    [set_input] takes the pairs that [accepts] takes and raises on the
    others: every pair of the data is offered once, in order; the
    simulation is returned whatever was refused; the names of the refused
    pairs are collected, once per period; there is no warning when nothing
    was refused, and otherwise one warning, after the loop, whose count is
    the number of refused pairs. *)
Theorem load_dataset_skips_refused
  (build_model : list Reform -> Relations -> Simulation) (rs : list Reform)
  (ds : Dataset) (y : Z) (p_id b_id h_id p_b p_h roles : ndarray) :
  let data := load ds y in
  let yr := str_of_Z y in
  let built :=
    build_model rs
      {| rel_person := p_id; rel_benunit := b_id; rel_household := h_id;
         rel_person_benunit := p_b; rel_person_household := p_h;
         rel_person_role := roles |} in
  data_get data "P_person_id" yr = ret p_id ->
  data_get data "B_benunit_id" yr = ret b_id ->
  data_get data "H_household_id" yr = ret h_id ->
  data_get data "P_benunit_id" yr = ret p_b ->
  data_get data "P_household_id" yr = ret p_h ->
  data_get data "P_role" yr = ret roles ->
  holds (length (input_keys data)) built ->
  exists model,
    load_dataset build_model rs ds y
    = (set_input_events (input_keys data)
         ++ warning_events (refused accepts (input_keys data)),
       Ret model) /\
    outcome (set_inputs built data [])
    = Ret (model, refused accepts (input_keys data)) /\
    (refused accepts (input_keys data) = [] <->
     forallb (fun k => accepts (fst k) (snd k)) (input_keys data) = true).
Proof.
  intros data yr built H1 H2 H3 H4 H5 H6 Hh. unfold load_dataset. fold data yr.
  rewrite H1, H2, H3, H4, H5, H6, !bind_ret_l. fold built.
  rewrite <- (Nat.add_0_r (length (input_keys data))) in Hh.
  destruct (set_inputs_by_key data 0 built [] Hh) as (model & Heq & _).
  exists model. rewrite Heq. cbn [app Py.bind fst snd outcome].
  split; [| split; [reflexivity |]].
  - destruct (refused accepts (input_keys data)); cbn; rewrite ?app_nil_r; reflexivity.
  - unfold refused. clear. induction (input_keys data) as [| k keys IH];
      [split; reflexivity |].
    cbn [List.filter forallb]. destruct (accepts (fst k) (snd k)); cbn [negb andb].
    + exact IH.
    + split; discriminate.
Qed.

End Refusals.

(** The storing engine takes the variables it knows, as long as it has
    room. *)
Lemma storing_engine_offer (known : list string) (n : nat) (s : Simulation)
  (v p : string) (a : ndarray) :
  (exists k, (S n <= k)%nat /\ s = storing_engine k known) ->
  if str_in v known
  then exists s', set_input s v p a = Ret s' /\
                  exists k, (n <= k)%nat /\ s' = storing_engine k known
  else exists e, set_input s v p a = Raise e.
Proof.
  intros (k & Hk & ->). destruct k as [| k]; [lia |].
  change (set_input (storing_engine (S k) known) v p a)
    with (if str_in v known then Ret (storing_engine k known)
          else Raise (EngineError v)).
  destruct (str_in v known).
  - exists (storing_engine k known). split; [reflexivity |].
    exists k. split; [lia | reflexivity].
  - exists (EngineError v). reflexivity.
Qed.

Lemma storing_engine_fewer (known : list string) (n : nat) (s : Simulation) :
  (exists k, (S n <= k)%nat /\ s = storing_engine k known) ->
  exists k, (n <= k)%nat /\ s = storing_engine k known.
Proof. intros (k & Hk & ->). exists k. split; [lia | reflexivity]. Qed.

Lemma load_dataset_skips_refused_witness :
  exists model,
    load_dataset builder [] frs 2020
    = (set_input_events (input_keys frs_data)
         ++ [EvWarn "Incomplete initialisation: skipped 2 variables:"],
       Ret model).
Proof.
  assert (Hroom : exists k,
             (length (input_keys (load frs 2020)) <= k)%nat /\
             builder [] {| rel_person := IntArray [0; 1]%Z;
                           rel_benunit := IntArray [0]%Z;
                           rel_household := IntArray [0]%Z;
                           rel_person_benunit := IntArray [0; 0]%Z;
                           rel_person_household := IntArray [0; 0]%Z;
                           rel_person_role := IntArray [0; 1]%Z |}
             = storing_engine k Examples2.relation_keys).
  { exists 100%nat. split; [cbn; lia | reflexivity]. }
  destruct (load_dataset_skips_refused
              (fun v _ => str_in v Examples2.relation_keys)
              (fun n s => exists k, (n <= k)%nat /\
                                    s = storing_engine k Examples2.relation_keys)
              (storing_engine_offer Examples2.relation_keys)
              (storing_engine_fewer Examples2.relation_keys)
              builder [] frs 2020
              (IntArray [0; 1]%Z) (IntArray [0]%Z) (IntArray [0]%Z)
              (IntArray [0; 0]%Z) (IntArray [0; 0]%Z) (IntArray [0; 1]%Z)
              eq_refl eq_refl eq_refl eq_refl eq_refl eq_refl Hroom)
    as (model & Heq & _).
  exists model. exact Heq.
Defined.

(** ** [deriv], same-entity branch *)

(** With no sibling cached for the configuration, building one fails before
    the class is even called: the keyword argument [mode=self.mode] reads an
    attribute that no instance has. *)
Lemma bonus_sim_for_uncached (build_model : list Reform -> Relations -> Simulation)
  (self : Microsimulation) (wrt : string) (delta : Q) (percent : bool)
  (m : VariableMeta) :
  bonus_get (wrt, delta, percent, "same-entity") (bonus_sims self) = None ->
  variables (simulation self) !! wrt = Some m ->
  bonus_sim_for build_model self wrt delta percent = raise (AttributeError "mode").
Proof.
  intros Hc Hm. unfold bonus_sim_for. rewrite Hc. unfold dict_get. rewrite Hm.
  reflexivity.
Qed.

(** Every instance that [__init__] returns starts with an empty cache of
    siblings. *)
Lemma init_bonus_sims_empty (build_model : list Reform -> Relations -> Simulation)
  (rs : list Reform) (y : Z) (ds : option Dataset) (l : list event)
  (self : Microsimulation) :
  init build_model rs y ds = (l, Ret self) -> bonus_sims self = [].
Proof.
  unfold init. destruct ds as [d |]; [| discriminate].
  destruct (load_dataset build_model (input_reform d :: rs) d y) as [l0 [e | sim]];
    [discriminate |].
  cbn [Py.bind].
  destruct (calc_unweighted _ "person_weight") as [l1 [e | pw]]; [discriminate |].
  cbn [Py.bind].
  destruct (calc_unweighted _ "benunit_weight") as [l2 [e | bw]]; [discriminate |].
  cbn [Py.bind].
  destruct (calc_unweighted _ "household_weight") as [l3 [e | hw]]; [discriminate |].
  cbn. intros [= _ <-]. reflexivity.
Qed.

(** C3, on the code.  On the linear system [output = 2 * wrt + 10], with
    both variables on persons and no sibling cached, [deriv] takes the
    same-entity branch and raises [AttributeError] for [self.mode], with
    [percent] false and with [percent] true, whatever the builder: no
    sibling simulation is constructed and no gradient is returned. *)
Theorem deriv_same_entity_raises_before_building_sibling :
  deriv_branch sim_linear "output" "wrt" = ret SameEntity /\
  forall (build_model : list Reform -> Relations -> Simulation) (percent : bool),
    deriv_same_entity build_model sim_linear "output" "wrt" 100 percent
    = raise (AttributeError "mode").
Proof.
  split; [reflexivity |]. intros build_model percent.
  unfold deriv_same_entity.
  rewrite (bonus_sim_for_uncached build_model sim_linear "wrt" 100 percent
             {| value_type := float_t; entity_key := "person" |});
    reflexivity.
Qed.

(** Lines 219-229 are reached only with a sibling already in the cache,
    which [deriv] alone never puts there; on an instance whose cache was
    filled by hand they compute the quotient of the two increases, 2 for
    the linear system, as a plain series. *)
Example deriv_same_entity_with_cached_sibling :
  outcome (deriv_same_entity builder sim_linear_cached "output" "wrt" 100 false)
  = Ret (sim_linear_cached, map Float64.Fin [2; 2; 2; 2]%Q).
Proof. vm_compute. reflexivity. Qed.

(** ** Arrays of finite values *)

Lemma broadcast2_same {A B C} (f : A -> B -> C) (xs : list A) (ys : list B) :
  length xs = length ys -> broadcast2 f xs ys = Ret (zip_with f xs ys).
Proof. intros H. unfold broadcast2. rewrite H, Nat.eqb_refl. reflexivity. Qed.

Lemma broadcast2_scalar_r {A B C} (f : A -> B -> C) (xs : list A) (y : B) :
  broadcast2 f xs [y] = Ret (map (fun x => f x y) xs).
Proof.
  unfold broadcast2. destruct xs as [| x [| x' xs]]; reflexivity.
Qed.

Lemma broadcast2_scalar_l {A B C} (f : A -> B -> C) (x : A) (ys : list B) :
  broadcast2 f [x] ys = Ret (map (f x) ys).
Proof.
  unfold broadcast2. destruct ys as [| y [| y' ys]]; reflexivity.
Qed.

Lemma finite_inv (x : Float64.t) : Float64.finite x -> exists q, x = Float64.Fin q.
Proof. destruct x; intros H; try discriminate H. eauto. Qed.






Lemma finite_minimum x y :
  Float64.finite x -> Float64.finite y -> Float64.finite (Float64.minimum x y).
Proof.
  intros [a ->]%finite_inv [b ->]%finite_inv. unfold Float64.minimum.
  destruct (Float64.leb _ _); reflexivity.
Qed.







(** ** [would_claim_PC] *)

Lemma map_orb_true (cs : list bool) : map (orb true) cs = repeat true (length cs).
Proof. induction cs as [| c cs IH]; cbn; [| rewrite IH]; reflexivity. Qed.

Lemma zip_with_orb_true (n : nat) (ys : list bool) :
  length ys = n -> zip_with orb (repeat true n) ys = repeat true n.
Proof.
  revert ys. induction n as [| n IH]; intros [| y ys] H; try discriminate H;
    cbn; [reflexivity |]. f_equal. apply IH. cbn in H. lia.
Qed.

Lemma bitwise_or_all_true (n : nat) (ys : list bool) :
  length ys = n ->
  bitwise_or (BoolArray (repeat true n)) (BoolArray ys)
  = Ret (BoolArray (repeat true n)).
Proof.
  intros H. unfold bitwise_or. cbn [as_bool].
  rewrite broadcast2_same by (rewrite repeat_length; congruence).
  rewrite zip_with_orb_true by assumption. reflexivity.
Qed.

(** C9.  With the inputs shaped as the engine supplies them (one reported
    total, one flag and one random draw per benefit unit), the formula of
    [would_claim_PC] returns [True] for every benefit unit, whatever the
    reported amounts, the take-up rate, the draw and the flags are. *)
Theorem would_claim_PC_always_true (i : PensionCredit.Inputs) (n : nat)
  (reported draw : list Float64.t) (claims : list bool) :
  as_float (PensionCredit.aggr_pension_credit_reported i) = Ret reported ->
  length reported = n ->
  PensionCredit.claims_all_entitled_benefits i = BoolArray claims ->
  length claims = n ->
  as_float (PensionCredit.random i) = Ret draw ->
  length draw = n ->
  PensionCredit.would_claim_PC i = ret (BoolArray (repeat true n)).
Proof.
  intros Hrep Hlen Hclaims Hcl Hdraw Hdl.
  unfold PensionCredit.would_claim_PC.
  unfold greater, less, compare_arrays, scalar. cbn [as_float].
  rewrite Hrep, Hdraw, !broadcast2_scalar_r, !bind_lift_ret.
  rewrite Hclaims. unfold PensionCredit.py_True, bitwise_or at 1.
  cbn [as_bool]. rewrite broadcast2_scalar_l, bind_lift_ret.
  rewrite map_orb_true, Hcl.
  rewrite bitwise_or_all_true by (rewrite length_map; assumption).
  rewrite bind_lift_ret.
  rewrite bitwise_or_all_true by (rewrite length_map; assumption).
  reflexivity.
Qed.

Lemma would_claim_PC_always_true_witness :
  PensionCredit.would_claim_PC
    {| PensionCredit.aggr_pension_credit_reported :=
         FloatArray (map Float64.Fin [0; 0; 0]%Q);
       PensionCredit.claims_all_entitled_benefits := BoolArray [false; false; false];
       PensionCredit.takeup := Float64.Fin 0;
       PensionCredit.random := FloatArray (map Float64.Fin [9 # 10; 1 # 2; 7 # 10]%Q) |}
  = ret (BoolArray [true; true; true]).
Proof.
  apply (would_claim_PC_always_true _ 3 (map Float64.Fin [0; 0; 0]%Q)
           (map Float64.Fin [9 # 10; 1 # 2; 7 # 10]%Q) [false; false; false]);
    reflexivity.
Defined.

(** ** [bi_household_phaseout] *)












(** The same inputs evaluated: the fourth person's household has a total of
    zero, its quotient 0/0 is discarded, and the factor and the phase-out
    are 0. *)
Example bi_household_phaseout_zero_household :
  BasicIncome.formula_body phaseout_inputs
  = ret {| BasicIncome.remaining_bi := FloatArray (map Float64.Fin [10; 5; 0; 0]%Q);
           BasicIncome.household_bi := FloatArray (map Float64.Fin [15; 15; 15; 0]%Q);
           BasicIncome.capped_deduction := FloatArray (map Float64.Fin [5; 5; 5; 0]%Q);
           BasicIncome.percent_reduction :=
             FloatArray (map Float64.Fin [1 # 3; 1 # 3; 1 # 3; 0]%Q);
           BasicIncome.result := FloatArray (map Float64.Fin [10 # 3; 5 # 3; 0; 0]%Q) |} /\
  Float64.div (Float64.Fin 0) (Float64.Fin 0) = Float64.NaN.
Proof. split; vm_compute; reflexivity. Qed.

(** * Further properties *)



(** ** [map_to]: unknown entities, the default operator, the recursion *)

Lemma populations_get_unknown (ps : Populations) (name : string) :
  name <> "person" -> name <> "benunit" -> name <> "household" ->
  populations_get ps name = Raise (KeyError name).
Proof.
  intros H1 H2 H3. unfold populations_get.
  rewrite (proj2 (String.eqb_neq _ _) H1), (proj2 (String.eqb_neq _ _) H2),
    (proj2 (String.eqb_neq _ _) H3). reflexivity.
Qed.

(** X1.  A source entity that the simulation does not have is a [KeyError]
    for its name, whatever the target is; with a known source, an unknown
    target is a [KeyError] for the target's name.  Nothing is computed in
    either case, also when source and target are the same unknown name. *)
Theorem map_to_unknown_entity (self : Microsimulation) (arr : option ndarray)
  (e t : string) (how : option string) :
  (e <> "person" -> e <> "benunit" -> e <> "household" ->
   map_to self arr e t how = raise (KeyError e)) /\
  (forall pop, populations_get (populations (simulation self)) e = Ret pop ->
   t <> "person" -> t <> "benunit" -> t <> "household" ->
   map_to self arr e t how = raise (KeyError t)).
Proof.
  unfold map_to. change recursion_limit with (S 999). split.
  - intros H1 H2 H3. rewrite map_to_rec_S.
    rewrite (populations_get_unknown _ e H1 H2 H3). reflexivity.
  - intros pop He H1 H2 H3. rewrite map_to_rec_S, He.
    rewrite (populations_get_unknown _ t H1 H2 H3). reflexivity.
Qed.

Lemma map_to_unknown_entity_witness :
  map_to sim_values (Some (IntArray [1]%Z)) "family" "family" None
  = raise (KeyError "family") /\
  map_to sim_values (Some (IntArray [1]%Z)) "person" "region" (Some "sum")
  = raise (KeyError "region").
Proof.
  split.
  - apply (proj1 (map_to_unknown_entity sim_values _ "family" "family" None));
      discriminate.
  - apply (proj2 (map_to_unknown_entity sim_values _ "person" "region" (Some "sum"))
             (PersonPopulation 4)); [reflexivity | discriminate ..].
Defined.

Lemma map_to_rec_default_how (n : nat) (self : Microsimulation)
  (arr : option ndarray) (t : string) (how : option string) :
  truthy how = false ->
  map_to_rec (S n) self arr "person" t how
  = map_to_rec (S n) self arr "person" t (Some "sum").
Proof.
  intros Hf. rewrite !map_to_rec_S.
  assert (Hs : how_or_sum how = "sum").
  { unfold how_or_sum. destruct how as [s |]; [rewrite Hf |]; reflexivity. }
  rewrite Hf, Hs.
  destruct (populations_get (populations (simulation self)) t) as [err | pop] eqn:Ht;
    [reflexivity |].
  destruct (populations_get_inv _ _ _ Ht) as [[-> _] | [[-> _] | [-> _]]];
    reflexivity.
Qed.

(** X2.  From the persons, an absent or empty [how] is [how="sum"], for
    every target. *)
Theorem map_to_default_how_is_sum (self : Microsimulation)
  (arr : option ndarray) (t : string) (how : option string) :
  truthy how = false ->
  map_to self arr "person" t how = map_to self arr "person" t (Some "sum").
Proof.
  intros Hf. unfold map_to. change recursion_limit with (S 999).
  apply map_to_rec_default_how, Hf.
Qed.

Lemma map_to_default_how_is_sum_witness :
  map_to sim_values (Some (FloatArray (map Float64.Fin [1; 2; 3; 4]%Q)))
         "person" "household" (Some EmptyString)
  = map_to sim_values (Some (FloatArray (map Float64.Fin [1; 2; 3; 4]%Q)))
           "person" "household" (Some "sum").
Proof. apply map_to_default_how_is_sum. reflexivity. Defined.

Lemma map_to_person_to_group_rejects_witness :
  map_to sim_values (Some (FloatArray (map Float64.Fin [1; 2; 3; 4]%Q)))
         "person" "benunit" (Some "median")
  = raise (ValueError "Not a valid function.").
Proof.
  apply (map_to_person_to_group_rejects sim_values _ "benunit" "median"
           (benunit pops)); [reflexivity | discriminate | reflexivity].
Defined.






(** ** [calc]: unknown variables, and the flags *)

(** X5.  For a name that is not a variable of the system, [calc] never
    returns and never asks for the direct calculation: it makes the sum and
    the divide attempts, raises the [KeyError] of the lookup when the divide
    attempt fails, and fails on the unbound [var_metadata] when it
    succeeds. *)
Theorem calc_unknown_variable (self : Microsimulation) (var : string)
  (p : option period) (weighted : bool) (target how : option string) :
  variables (simulation self) !! var = None ->
  let p' := match p with None => PInt (year self) | Some q => q end in
  calc self var p weighted target how
  = ([EvCalculateAdd var p'; EvCalculateDivide var p'],
     match calculate_divide (simulation self) var p' with
     | Ret _ => Raise (UnboundLocalError "var_metadata")
     | Raise _ => Raise (KeyError var)
     end).
Proof.
  intros Hv p'.
  assert (Hr : resolve (simulation self) var p' None
               = ([EvCalculateAdd var p'; EvCalculateDivide var p'],
                  match calculate_divide (simulation self) var p' with
                  | Ret a => Ret a
                  | Raise _ => Raise (KeyError var)
                  end)).
  { unfold resolve, attempt_direct, attempt_add, attempt_divide.
    destruct (calculate_add (simulation self) var p') as [e1 | a1];
      destruct (calculate_divide (simulation self) var p') as [e2 | a2];
      reflexivity. }
  unfold calc. fold p'. rewrite Hv, Hr.
  destruct (calculate_divide (simulation self) var p') as [e2 | a2];
    [reflexivity |].
  unfold Py.bind at 1. cbn [local]. unfold raise. rewrite bind_raise_l.
  reflexivity.
Qed.

Lemma calc_unknown_variable_witness :
  calc sim_values "no_such_variable" None true None None
  = ([EvCalculateAdd "no_such_variable" (PInt 2020);
      EvCalculateDivide "no_such_variable" (PInt 2020)],
     Raise (KeyError "no_such_variable")).
Proof.
  apply (calc_unknown_variable sim_values "no_such_variable" None true None None).
  reflexivity.
Defined.

Lemma populations_get_person (ps : Populations) :
  populations_get ps "person" = Ret (PersonPopulation (person_count ps)).
Proof. reflexivity. Qed.

Lemma map_to_rec_person_to_group (n : nat) (self : Microsimulation)
  (arr : option ndarray) (t : string) (how : option string)
  (target : GroupPopulation) :
  populations_get (populations (simulation self)) t = Ret (GroupPop target) ->
  (truthy how = true -> str_in (how_or_sum how) valid_how = false ->
   map_to_rec (S n) self arr "person" t how
   = raise (ValueError "Not a valid function.")) /\
  (str_in (how_or_sum how) valid_how = true ->
   exists f, gp_getattribute target (how_or_sum how) = Ret f /\
     map_to_rec (S n) self arr "person" t how
     = (do a <- lift (as_array arr) ; do r <- lift (f a) ; ret (Some r))).
Proof.
  intros Ht.
  assert (Hb : String.eqb "person" "person" && str_in t ["benunit"; "household"] = true)
    by (destruct (group_entity_inv _ _ _ Ht) as [[-> _] | [-> _]]; reflexivity).
  rewrite map_to_rec_S, Ht, populations_get_person, !bind_lift_ret, Hb. split.
  - intros Hy Hbad. rewrite Hy, Hbad. reflexivity.
  - intros Hok. rewrite Hok, andb_false_r. cbn [pop_getattribute].
    assert (Hf : exists f, gp_getattribute target (how_or_sum how) = Ret f).
    { unfold gp_getattribute. unfold str_in, valid_how in Hok. cbn in Hok.
      repeat (destruct (String.eqb (how_or_sum how) _); [eauto |]).
      discriminate Hok. }
    destruct Hf as [f Hf]. exists f. rewrite Hf, bind_lift_ret. auto.
Qed.

(** X3.  From the persons to a group entity, [how] is checked before
    anything is computed: a non-empty name outside the six reductions is a
    [ValueError], and each of the six (or no [how], which is the sum) is the
    method of that name of the target population, applied to the array; the
    branch never returns [None]. *)
Theorem map_to_person_to_group (self : Microsimulation) (arr : option ndarray)
  (t : string) (how : option string) (target : GroupPopulation) :
  populations_get (populations (simulation self)) t = Ret (GroupPop target) ->
  (truthy how = true -> str_in (how_or_sum how) valid_how = false ->
   map_to self arr "person" t how = raise (ValueError "Not a valid function.")) /\
  (str_in (how_or_sum how) valid_how = true ->
   exists f, gp_getattribute target (how_or_sum how) = Ret f /\
     map_to self arr "person" t how
     = (do a <- lift (as_array arr) ; do r <- lift (f a) ; ret (Some r))).
Proof.
  unfold map_to. change recursion_limit with (S 999).
  apply map_to_rec_person_to_group.
Qed.

Lemma map_to_person_to_group_witness :
  map_to sim_values (Some (FloatArray (map Float64.Fin [1; 2; 3; 4]%Q)))
         "person" "benunit" (Some "median")
  = raise (ValueError "Not a valid function.") /\
  map_to sim_values (Some (FloatArray (map Float64.Fin [1; 2; 3; 4]%Q)))
         "person" "benunit" (Some "max")
  = ret (Some (FloatArray (map Float64.Fin [2; 3; 4]%Q))).
Proof.
  destruct (map_to_person_to_group sim_values
              (Some (FloatArray (map Float64.Fin [1; 2; 3; 4]%Q)))
              "benunit" (Some "median") (benunit pops) eq_refl) as [Hbad _].
  destruct (map_to_person_to_group sim_values
              (Some (FloatArray (map Float64.Fin [1; 2; 3; 4]%Q)))
              "benunit" (Some "max") (benunit pops) eq_refl) as [_ Hok].
  split; [apply Hbad; reflexivity |].
  destruct (Hok eq_refl) as (f & Hf & ->). injection Hf as <-. reflexivity.
Defined.

(** X6.  With [weighted=False], [calc] returns the native array and never
    looks at [map_to] or [how]: no entity transform is applied, and a
    target that is not an entity or an operator that is not allowed raises
    nothing. *)
Theorem calc_unweighted_ignores_map_to (self : Microsimulation) (var : string)
  (p : option period) (target how : option string) :
  calc self var p false target how = calc self var p false None None /\
  (forall r, outcome (calc self var p false target how) = Ret r ->
     exists a, r = RawArray a).
Proof.
  split; [reflexivity |].
  unfold calc.
  destruct (resolve _ _ _ _) as [l [e | arr]]; [discriminate |].
  cbn [Py.bind].
  destruct (local "var_metadata" _) as [l1 [e | vm]]; [discriminate |].
  cbn [Py.bind].
  destruct (postprocess vm arr) as [l2 [e | arr']]; [discriminate |].
  cbn. intros r [= <-]. eauto.
Qed.

(** The branch [entity == target_entity] of [map_to], for an entity of the
    simulation. *)
Lemma map_to_same_entity (self : Microsimulation) (arr : option ndarray)
  (e : string) (how : option string) (pop : Population) :
  populations_get (populations (simulation self)) e = Ret pop ->
  map_to self arr e e how = ret arr.
Proof.
  intros H. unfold map_to. change recursion_limit with (S 999).
  destruct (populations_get_inv _ _ _ H) as [[-> _] | [[-> _] | [-> _]]];
    map_to_step; reflexivity.
Qed.

(** X7.  Mapping a variable to the entity it is declared on changes
    nothing: [calc(var, map_to=e, how=h)] with [e] the variable's own entity
    is [calc(var)], whatever [h] is. *)
Theorem calc_map_to_own_entity (self : Microsimulation) (var : string)
  (p : option period) (how how' : option string) (m : VariableMeta)
  (pop : Population) :
  variables (simulation self) !! var = Some m ->
  populations_get (populations (simulation self)) (entity_key m) = Ret pop ->
  calc self var p true (Some (entity_key m)) how = calc self var p true None how'.
Proof.
  intros Hm He. unfold calc. rewrite Hm.
  assert (Hy : truthy (Some (entity_key m)) = true).
  { destruct (populations_get_inv _ _ _ He) as [[-> _] | [[-> _] | [-> _]]];
      reflexivity. }
  rewrite Hy.
  destruct (resolve _ _ _ _) as [l [e | arr]]; [reflexivity |].
  cbn [Py.bind local]. rewrite !bind_ret_l.
  destruct (postprocess m arr) as [l2 [e | arr']]; [reflexivity |].
  cbn [Py.bind negb].
  rewrite (map_to_same_entity self (Some arr') (entity_key m) how pop He).
  rewrite bind_ret_l. reflexivity.
Qed.

Lemma calc_map_to_own_entity_witness :
  calc sim_values "rent" None true (Some "benunit") (Some "no such operator")
  = calc sim_values "rent" None true None None.
Proof.
  apply (calc_map_to_own_entity sim_values "rent" None _ _
           {| value_type := float_t; entity_key := "benunit" |}
           (GroupPop (benunit pops))); reflexivity.
Defined.

(** ** [df] *)

Import Frames Examples2.

Lemma assoc_set_column_eq (cols : list (string * CalcResult)) (var : string)
  (c : CalcResult) : assoc var (set_column cols var c) = Some c.
Proof.
  unfold assoc. induction cols as [| [k v] rest IH]; cbn.
  - rewrite String.eqb_refl. reflexivity.
  - destruct (String.eqb k var) eqn:Hk; cbn; rewrite Hk; [reflexivity | exact IH].
Qed.

Lemma assoc_set_column_ne (cols : list (string * CalcResult)) (var k : string)
  (c : CalcResult) :
  k <> var -> assoc k (set_column cols var c) = assoc k cols.
Proof.
  intros Hne. unfold assoc. induction cols as [| [k' v] rest IH]; cbn.
  - rewrite (proj2 (String.eqb_neq var k)) by congruence. reflexivity.
  - destruct (String.eqb k' var) eqn:Hk; cbn.
    + apply String.eqb_eq in Hk. subst k'.
      rewrite (proj2 (String.eqb_neq var k)) by congruence. reflexivity.
    + destruct (String.eqb k' k); [reflexivity | exact IH].
Qed.

Lemma df_columns_spec (self : Microsimulation) (p : option period)
  (entity : string) (vars : list string) :
  forall cols l cols',
    df_columns self vars p entity cols = (l, Ret cols') ->
    (forall v, In v vars ->
       exists c, assoc v cols' = Some c /\
                 outcome (calc self v p true (Some entity) None) = Ret c) /\
    (forall k, ~ In k vars -> assoc k cols' = assoc k cols).
Proof.
  induction vars as [| var rest IH]; intros cols l cols' H.
  - injection H as _ <-. split; [intros v [] | reflexivity].
  - cbn [df_columns] in H.
    destruct (calc self var p true (Some entity) None) as [l1 [e | c]] eqn:Hc;
      [discriminate H |].
    cbn [Py.bind] in H.
    destruct (df_columns self rest p entity (set_column cols var c))
      as [l2 r2] eqn:Hrest.
    injection H as _ ->.
    destruct (IH _ _ _ Hrest) as [Hin Hout]. split.
    + intros v [<- | Hv].
      * destruct (in_dec String.string_dec var rest) as [Hr | Hr]; [apply Hin, Hr |].
        exists c. rewrite (Hout var Hr), assoc_set_column_eq, Hc. auto.
      * apply Hin, Hv.
    + intros k Hk. rewrite Hout by (intros ?; apply Hk; right; assumption).
      apply assoc_set_column_ne. intros ->. apply Hk. left. reflexivity.
Qed.

(** X8.  When [df] returns a frame, the frame has one column per requested
    name and no other, each column is what [calc] returns for that variable
    mapped to the frame's entity with no [how] (so with the default
    operator of the direction), and the weights are those of that entity:
    [map_to] when it is given, the entity of the first variable otherwise. *)
Theorem df_columns_are_mapped_calcs (self : Microsimulation) (vars : list string)
  (p : option period) (map_to_ : option string) (l : list event)
  (frame : MicroDataFrame) :
  df self vars p map_to_ = (l, Ret frame) ->
  exists entity,
    df_entity self vars map_to_ = ret entity /\
    entity_weights self !! entity = Some (frame_weights frame) /\
    (forall v, In v vars ->
       exists c, assoc v (columns frame) = Some c /\
                 outcome (calc self v p true (Some entity) None) = Ret c) /\
    (forall k, ~ In k vars -> assoc k (columns frame) = None).
Proof.
  unfold df. intros H.
  assert (He : exists entity, df_entity self vars map_to_ = ret entity).
  { unfold df_entity in *.
    destruct map_to_ as [t |]; [destruct (truthy (Some t)); [eauto |] |];
      (destruct vars as [| v vs]; [discriminate H |]);
      unfold dict_get in *; destruct (variables (simulation self) !! v);
      try discriminate H; eauto. }
  destruct He as [entity He]. rewrite He, bind_ret_l in H. exists entity.
  destruct (df_columns self vars p entity []) as [l1 [e | cols]] eqn:Hcols;
    [discriminate H |].
  cbn [Py.bind] in H. unfold dict_get in H.
  destruct (entity_weights self !! entity) as [w |] eqn:Hw; [| discriminate H].
  cbn in H. injection H as _ <-. cbn [columns frame_weights].
  destruct (df_columns_spec self p entity vars _ _ _ Hcols) as [Hin Hout].
  split; [exact He |]. split; [reflexivity |]. split; [assumption |].
  intros k Hk. rewrite (Hout k Hk). reflexivity.
Qed.

Lemma df_columns_are_mapped_calcs_witness :
  exists entity,
    df_entity sim_values ["rent"; "wage"] None = ret entity /\
    entity_weights sim_values !! entity
    = Some (FloatArray (map Float64.of_Z [1; 1; 1]%Z)) /\
    (forall v, In v ["rent"; "wage"] ->
       exists c,
         assoc v [("rent", MicroSeries
                             (Some (FloatArray [Float64.Fin (2579497 # 2097152);
                                                Float64.Fin 10; Float64.Fin 7]))
                             (FloatArray (map Float64.of_Z [1; 1; 1]%Z)));
                  ("wage", MicroSeries
                             (Some (FloatArray (map Float64.Fin [1; 2; 3]%Q)))
                             (FloatArray (map Float64.of_Z [1; 1; 1]%Z)))]
         = Some c /\
         outcome (calc sim_values v None true (Some entity) None) = Ret c) /\
    (forall k, ~ In k ["rent"; "wage"] ->
       assoc k [("rent", MicroSeries
                           (Some (FloatArray [Float64.Fin (2579497 # 2097152);
                                              Float64.Fin 10; Float64.Fin 7]))
                           (FloatArray (map Float64.of_Z [1; 1; 1]%Z)));
                ("wage", MicroSeries
                           (Some (FloatArray (map Float64.Fin [1; 2; 3]%Q)))
                           (FloatArray (map Float64.of_Z [1; 1; 1]%Z)))]
       = None).
Proof.
  apply (df_columns_are_mapped_calcs sim_values ["rent"; "wage"] None None
           [EvCalculate "rent" (PInt 2020); EvCalculate "wage" (PInt 2020)]
           {| columns := _; frame_weights := _ |}).
  vm_compute. reflexivity.
Defined.

(** X9.  With no variable, [df] fails on [vars[0]] unless [map_to] is
    given; with [map_to] given it does not look at the variables' entities
    and returns the frame without columns, weighted by that entity. *)
Theorem df_without_variables (self : Microsimulation) (p : option period)
  (map_to_ : option string) :
  (truthy map_to_ = false ->
   df self [] p map_to_ = raise (IndexError "list index out of range")) /\
  (forall t w, map_to_ = Some t -> truthy map_to_ = true ->
   entity_weights self !! t = Some w ->
   df self [] p map_to_ = ret {| columns := []; frame_weights := w |}).
Proof.
  unfold df, df_entity. split.
  - intros Hf. destruct map_to_ as [t |]; [rewrite Hf |]; reflexivity.
  - intros t w -> Hy Hw. rewrite Hy. cbn. unfold dict_get. rewrite Hw. reflexivity.
Qed.

Lemma df_without_variables_witness :
  df sim_values [] None (Some EmptyString)
  = raise (IndexError "list index out of range") /\
  df sim_values [] None (Some "household")
  = ret {| columns := [];
           frame_weights := FloatArray (map Float64.of_Z [1; 1]%Z) |}.
Proof.
  split.
  - apply (proj1 (df_without_variables sim_values None (Some EmptyString))).
    reflexivity.
  - apply (proj2 (df_without_variables sim_values None (Some "household"))
             "household"); reflexivity.
Defined.

(** ** [apply_reforms] *)

Section ApplyReformsFacts.

Variable System : Type.
Variable apply_one : Reform -> System -> System.

Lemma apply_reform_flatten :
  forall (r : Reform) (sys : System),
    apply_reform System apply_one r sys
    = fold_left (fun s r' => apply_one r' s) (flatten r) sys.
Proof.
  fix IH 1. intros [name | name | wrt delta percent | rs] sys;
    try reflexivity.
  cbn [apply_reform flatten]. revert sys.
  induction rs as [| r rs IHrs]; intros sys; [reflexivity |].
  cbn [fold_left flat_map]. rewrite fold_left_app, <- IH. apply IHrs.
Qed.

(** X10.  Applying a list of reforms in which tuples and lists are nested
    to any depth is applying, in order, the reforms of its flattening: every
    reform that is not a sequence is called exactly once, left to right, and
    an empty sequence changes nothing. *)
Theorem apply_reforms_flattens (rs : list Reform) (sys : System) :
  apply_reforms System apply_one rs sys
  = fold_left (fun s r => apply_one r s) (flat_map flatten rs) sys /\
  Forall (fun r => forall rs', r <> ReformGroup rs') (flat_map flatten rs).
Proof.
  split.
  - unfold apply_reforms. revert sys.
    induction rs as [| r rs IH]; intros sys; [reflexivity |].
    cbn [fold_left flat_map]. rewrite fold_left_app, <- apply_reform_flatten.
    apply IH.
  - apply Forall_flat_map, Forall_forall. intros r _. revert r.
    fix IH 1. intros [name | name | wrt delta percent | rs'];
      try (constructor; [discriminate | constructor]).
    cbn [flatten]. induction rs' as [| r rs' IHrs]; [constructor |].
    cbn [flat_map]. apply Forall_app. split; [apply IH | apply IHrs].
Qed.

End ApplyReformsFacts.

(** ** [load_dataset]: missing arrays, and a system that accepts nothing *)




Lemma set_inputs_periods_refused (model : Simulation) (v : string)
  (periods : list (string * ndarray)) :
  (forall v' p a, exists e, set_input model v' p a = Raise e) ->
  forall skipped,
    set_inputs_periods model v periods skipped
    = (map (fun pa => EvSetInput v (fst pa)) periods,
       Ret (model, skipped ++ map (fun _ => v) periods)).
Proof.
  intros Href. induction periods as [| [p a] rest IH]; intros skipped.
  - cbn. rewrite app_nil_r. reflexivity.
  - cbn [set_inputs_periods]. destruct (Href v p a) as [e ->].
    rewrite IH. cbn. rewrite <- app_assoc. reflexivity.
Qed.

Lemma set_inputs_refused (model : Simulation) (data : Data) :
  (forall v p a, exists e, set_input model v p a = Raise e) ->
  forall skipped,
    set_inputs model data skipped
    = (set_input_events (input_keys data),
       Ret (model, skipped ++ map fst (input_keys data))).
Proof.
  intros Href. induction data as [| [v periods] rest IH]; intros skipped.
  - cbn. rewrite app_nil_r. reflexivity.
  - cbn [set_inputs]. rewrite (set_inputs_periods_refused model v periods Href).
    cbn. rewrite IH. unfold set_input_events, input_keys. cbn.
    rewrite !map_app, !map_map, <- app_assoc. reflexivity.
Qed.

(** X12.  The relation arrays are offered to the simulation as inputs like
    every other array of the data.  With a system that accepts none of
    them, [load_dataset] still returns the simulation as it was built, and
    the one warning counts every (variable, period) pair of the data, the
    six relation arrays included. *)
Theorem load_dataset_all_refused
  (build_model : list Reform -> Relations -> Simulation) (rs : list Reform)
  (ds : Dataset) (y : Z) (p_id b_id h_id p_b p_h roles : ndarray) :
  let data := load ds y in
  let yr := str_of_Z y in
  let model :=
    build_model rs
      {| rel_person := p_id; rel_benunit := b_id; rel_household := h_id;
         rel_person_benunit := p_b; rel_person_household := p_h;
         rel_person_role := roles |} in
  data_get data "P_person_id" yr = ret p_id ->
  data_get data "B_benunit_id" yr = ret b_id ->
  data_get data "H_household_id" yr = ret h_id ->
  data_get data "P_benunit_id" yr = ret p_b ->
  data_get data "P_household_id" yr = ret p_h ->
  data_get data "P_role" yr = ret roles ->
  (forall v p a, exists e, set_input model v p a = Raise e) ->
  load_dataset build_model rs ds y
  = (set_input_events (input_keys data)
       ++ [EvWarn (incomplete_warning (map fst (input_keys data)))],
     Ret model) /\
  6 <= length (input_keys data).
Proof.
  intros data yr model H1 H2 H3 H4 H5 H6 Href.
  assert (Hlen : 6 <= length (input_keys data)).
  { assert (Hk : forall name a, data_get data name yr = ret a ->
                   In (name, yr) (input_keys data)).
    { intros name a. unfold data_get, assoc.
      destruct (List.find _ data) as [[v ps] |] eqn:Hv; [| discriminate].
      cbn. destruct (List.find _ ps) as [[q b] |] eqn:Hq; [| discriminate].
      intros _. apply find_some in Hv, Hq. cbn in Hv, Hq.
      destruct Hv as [Hv Ev], Hq as [Hq Eq].
      apply String.eqb_eq in Ev, Eq. subst v q.
      unfold input_keys. apply in_flat_map. exists (name, ps).
      split; [assumption |]. cbn. apply in_map_iff. exists (yr, b). auto. }
    assert (Hnd : List.NoDup relation_keys).
    { unfold relation_keys.
      repeat (apply List.NoDup_cons; [cbn; intuition discriminate |]).
      apply List.NoDup_nil. }
    rewrite <- (length_map fst (input_keys data)).
    apply (NoDup_incl_length Hnd). intros k Hin.
    apply in_map_iff. exists (k, yr). split; [reflexivity |].
    unfold relation_keys in Hin. cbn in Hin.
    repeat (destruct Hin as [<- | Hin]; [eauto |]). destruct Hin. }
  split; [| exact Hlen].
  unfold load_dataset. fold data yr.
  rewrite H1, H2, H3, H4, H5, H6, !bind_ret_l. fold model.
  rewrite (set_inputs_refused model data Href). cbn [app fst snd Py.bind].
  destruct (map fst (input_keys data)) eqn:Hs.
  - apply (f_equal (@length string)) in Hs. rewrite length_map in Hs.
    cbn in Hs. lia.
  - reflexivity.
Qed.

Lemma load_dataset_all_refused_witness :
  load_dataset refusing_builder [] frs 2020
  = (set_input_events (input_keys frs_data)
       ++ [EvWarn "Incomplete initialisation: skipped 8 variables:"],
     Ret (storing_engine 0 [])).
Proof.
  refine (proj1 (load_dataset_all_refused refusing_builder [] frs 2020
                   (IntArray [0; 1]%Z) (IntArray [0]%Z) (IntArray [0]%Z)
                   (IntArray [0; 0]%Z) (IntArray [0; 0]%Z) (IntArray [0; 1]%Z)
                   _ _ _ _ _ _ _));
    try reflexivity.
  intros v p a. eexists. reflexivity.
Defined.

(** ** [__init__] *)

(** X13.  What [__init__] establishes: without a dataset it raises
    [AttributeError] (the default [dataset=None] cannot be used); every
    instance it returns holds the dataset and the year it was given, has the
    dataset's input reform in front of the reforms, has sampling weights for
    exactly the three entities, and has no sibling simulation. *)
Theorem init_establishes (build_model : list Reform -> Relations -> Simulation)
  (rs : list Reform) (y : Z) (ds : option Dataset) :
  (ds = None -> init build_model rs y ds = raise (AttributeError "input_reform")) /\
  (forall l self, init build_model rs y ds = (l, Ret self) ->
     exists d, ds = Some d /\ dataset self = Some d /\ year self = y /\
       reforms self = input_reform d :: rs /\ bonus_sims self = [] /\
       dom (entity_weights self) = {[ "person"; "benunit"; "household" ]}).
Proof.
  split; [intros ->; reflexivity |].
  intros l self. unfold init. destruct ds as [d |]; [| discriminate].
  destruct (load_dataset build_model (input_reform d :: rs) d y) as [l0 [e | sim]];
    [discriminate |].
  cbn [Py.bind].
  destruct (calc_unweighted _ "person_weight") as [l1 [e | pw]]; [discriminate |].
  cbn [Py.bind].
  destruct (calc_unweighted _ "benunit_weight") as [l2 [e | bw]]; [discriminate |].
  cbn [Py.bind].
  destruct (calc_unweighted _ "household_weight") as [l3 [e | hw]]; [discriminate |].
  cbn. intros [= _ <-]. exists d. cbn. repeat split.
Qed.

Lemma init_establishes_witness :
  exists self l,
    init weights_builder [NamedReform "reform"] 2020 (Some frs) = (l, Ret self) /\
    dataset self = Some frs /\ year self = 2020%Z /\
    reforms self = [InputReform "frs"; NamedReform "reform"] /\
    bonus_sims self = [] /\
    dom (entity_weights self) = {[ "person"; "benunit"; "household" ]}.
Proof.
  destruct (init weights_builder [NamedReform "reform"] 2020 (Some frs))
    as [l [e | self]] eqn:Hinit; [vm_compute in Hinit; discriminate Hinit |].
  exists self, l. split; [reflexivity |].
  destruct (proj2 (init_establishes weights_builder [NamedReform "reform"] 2020
                     (Some frs)) l self Hinit)
    as (d & [= <-] & Hd & Hy & Hr & Hb & Hw).
  auto.
Defined.

(** ** [deriv] on the instances that the class builds *)

(** X14.  On every instance that [__init__] returns, the same-entity
    branch of [deriv] returns no gradient, whatever the target, the (known)
    source variable, [delta] and [percent] are: the cache of siblings is
    empty, so the branch sets out to build one and raises [AttributeError]
    for [self.mode] before anything is calculated or stored.  The cache
    stays empty, so lines 219-229 are not reached on such an instance. *)
Theorem deriv_same_entity_never_returns
  (build_model build_model' : list Reform -> Relations -> Simulation)
  (rs : list Reform) (y : Z) (ds : option Dataset) (l : list event)
  (self : Microsimulation) (target wrt : string) (delta : Q) (percent : bool)
  (m : VariableMeta) :
  init build_model rs y ds = (l, Ret self) ->
  variables (simulation self) !! wrt = Some m ->
  deriv_same_entity build_model' self target wrt delta percent
  = raise (AttributeError "mode").
Proof.
  intros Hinit Hm. unfold deriv_same_entity.
  rewrite (bonus_sim_for_uncached build_model' self wrt delta percent m);
    [reflexivity | | exact Hm].
  rewrite (init_bonus_sims_empty build_model rs y ds l self Hinit). reflexivity.
Qed.

Lemma deriv_same_entity_never_returns_witness :
  exists l self,
    init weights_builder [NamedReform "reform"] 2020 (Some frs) = (l, Ret self) /\
    deriv_same_entity weights_builder self "person_weight" "person_weight" 100 true
    = raise (AttributeError "mode").
Proof.
  destruct (init weights_builder [NamedReform "reform"] 2020 (Some frs))
    as [l [e | self]] eqn:Hinit; [vm_compute in Hinit; discriminate Hinit |].
  exists l, self. split; [reflexivity |].
  apply (deriv_same_entity_never_returns weights_builder weights_builder
           [NamedReform "reform"] 2020 (Some frs) l self "person_weight"
           "person_weight" 100 true
           {| value_type := float_t; entity_key := "person" |} Hinit).
  vm_compute in Hinit. injection Hinit as _ <-. reflexivity.
Defined.

(** ** [chain] *)

Section ChainFacts.

Variables (P R : Type).

Lemma chain_loop_app (fs gs : list (Tools.Func P R)) (p : P) (args : option R) :
  Tools.chain_loop P R (fs ++ gs) p args =
  match Tools.chain_loop P R fs p args with
  | Raise e => Raise e
  | Ret (p', args') => Tools.chain_loop P R gs p' args'
  end.
Proof.
  revert p args. induction fs as [| f fs IH]; intros p args; [reflexivity |].
  cbn [Tools.chain_loop app]. destruct (f p) as [e | [p' r]]; [reflexivity |].
  apply IH.
Qed.

(** X15.  [chain] does not compose its functions: each one is called on
    the same object, in order, and only the value returned by the last one
    comes back, the earlier values being dropped; an exception of any call
    ends the chain; with no function at all the call fails on the unbound
    [args]. *)
Theorem chain_returns_last (fs : list (Tools.Func P R)) (f : Tools.Func P R) (p : P) :
  Tools.chain P R [] p = Raise (UnboundLocalError "args") /\
  Tools.chain P R (fs ++ [f]) p =
    match Tools.chain_loop P R fs p None with
    | Raise e => Raise e
    | Ret (p', _) => f p'
    end /\
  (Forall (fun g => forall q, exists r, g q = Ret (q, r)) fs ->
   Tools.chain P R (fs ++ [f]) p = f p).
Proof.
  assert (Hlast : Tools.chain P R (fs ++ [f]) p =
                  match Tools.chain_loop P R fs p None with
                  | Raise e => Raise e
                  | Ret (p', _) => f p'
                  end).
  { unfold Tools.chain. rewrite chain_loop_app.
    destruct (Tools.chain_loop P R fs p None) as [e | [p' args]]; [reflexivity |].
    cbn [Tools.chain_loop].
    destruct (f p') as [e | [p'' r]]; [reflexivity | reflexivity]. }
  split; [reflexivity |]. split; [exact Hlast |].
  intros Hpure. rewrite Hlast. clear Hlast.
  assert (Hloop : forall args, exists args',
             Tools.chain_loop P R fs p args = Ret (p, args')).
  { induction Hpure as [| g gs Hg _ IH]; intros args; [eexists; reflexivity |].
    cbn. destruct (Hg p) as [r ->]. apply IH. }
  destruct (Hloop None) as [args' ->]. reflexivity.
Qed.

End ChainFacts.

Lemma chain_returns_last_witness :
  Tools.chain Z Z [fun q => Ret (q, (q + 1)%Z); fun q => Ret (q, (q * 2)%Z)] 5%Z
  = Ret (5%Z, 10%Z).
Proof.
  apply (proj2 (proj2 (chain_returns_last Z Z [fun q => Ret (q, (q + 1)%Z)]
                         (fun q => Ret (q, (q * 2)%Z)) 5%Z))).
  constructor; [intros q; eexists; reflexivity | constructor].
Defined.

(** ** Vectorised formulas, unit by unit *)

Import Units.

Lemma as_float_flags {U} (f : U -> bool) (rows : list U) :
  as_float (flags f rows) = Ret (map (fun r => Float64.of_bool (f r)) rows).
Proof. unfold flags. cbn. rewrite map_map. reflexivity. Qed.

Lemma as_float_column {U} (f : U -> Q) (rows : list U) :
  as_float (column f rows) = Ret (map (fin f) rows).
Proof. reflexivity. Qed.

Lemma zip_with_map_same {U A B C} (f : A -> B -> C) (g : U -> A) (h : U -> B)
  (rows : list U) :
  zip_with f (map g rows) (map h rows) = map (fun r => f (g r) (h r)) rows.
Proof. induction rows as [| r rows IH]; cbn; [| rewrite IH]; reflexivity. Qed.

Lemma lift2_cols {U} (f : Float64.t -> Float64.t -> Float64.t) (a b : ndarray)
  (g h : U -> Float64.t) (rows : list U) :
  as_float a = Ret (map g rows) -> as_float b = Ret (map h rows) ->
  lift2 f a b = Ret (FloatArray (map (fun r => f (g r) (h r)) rows)).
Proof.
  intros Ha Hb. unfold lift2. rewrite Ha, Hb.
  rewrite broadcast2_same by (rewrite !length_map; reflexivity).
  rewrite zip_with_map_same. reflexivity.
Qed.

Lemma lift2_col_scalar_r {U} (f : Float64.t -> Float64.t -> Float64.t)
  (a : ndarray) (c : Float64.t) (g : U -> Float64.t) (rows : list U) :
  as_float a = Ret (map g rows) ->
  lift2 f a (scalar c) = Ret (FloatArray (map (fun r => f (g r) c) rows)).
Proof.
  intros Ha. unfold lift2, scalar. rewrite Ha. cbn [as_float].
  rewrite broadcast2_scalar_r, map_map. reflexivity.
Qed.

Lemma lift2_col_scalar_l {U} (f : Float64.t -> Float64.t -> Float64.t)
  (b : ndarray) (c : Float64.t) (h : U -> Float64.t) (rows : list U) :
  as_float b = Ret (map h rows) ->
  lift2 f (scalar c) b = Ret (FloatArray (map (fun r => f c (h r)) rows)).
Proof.
  intros Hb. unfold lift2, scalar. rewrite Hb. cbn [as_float].
  rewrite broadcast2_scalar_l, map_map. reflexivity.
Qed.

Lemma compare_col_scalar_r {U} (f : Float64.t -> Float64.t -> bool)
  (a : ndarray) (c : Float64.t) (g : U -> Float64.t) (rows : list U) :
  as_float a = Ret (map g rows) ->
  compare_arrays f a (scalar c) = Ret (BoolArray (map (fun r => f (g r) c) rows)).
Proof.
  intros Ha. unfold compare_arrays, scalar. rewrite Ha. cbn [as_float].
  rewrite broadcast2_scalar_r, map_map. reflexivity.
Qed.

Lemma Forall2_map_rows {U V} (P : U -> V -> Prop) (F : U -> V) (rows : list U) :
  (forall r, P r (F r)) -> Forall2 P rows (map F rows).
Proof. intros H. induction rows; cbn; constructor; auto. Qed.

Ltac column_side :=
  first [ apply as_float_flags | apply as_float_column | reflexivity ].

Ltac vectorise :=
  repeat first
    [ rewrite bind_lift_ret
    | erewrite lift2_cols by column_side
    | erewrite lift2_col_scalar_r by column_side
    | erewrite lift2_col_scalar_l by column_side
    | erewrite compare_col_scalar_r by column_side ].

(** Comparisons of finite values, as propositions. *)
Lemma Qcompare_cases (a b : Q) :
  ((a ?= b)%Q = Lt /\ (a < b)%Q) \/ ((a ?= b)%Q = Eq /\ (a == b)%Q) \/
  ((a ?= b)%Q = Gt /\ (b < a)%Q).
Proof.
  destruct (a ?= b)%Q eqn:H.
  - right; left. split; [reflexivity | apply Qeq_alt, H].
  - left. split; [reflexivity | apply Qlt_alt, H].
  - right; right. split; [reflexivity | apply Qgt_alt, H].
Qed.

Lemma maximum_Fin (a b : Q) :
  exists m, Float64.maximum (Float64.Fin a) (Float64.Fin b) = Float64.Fin m /\
            (m == Qmax a b)%Q.
Proof.
  unfold Float64.maximum, Float64.leb.
  destruct (Qcompare_cases a b) as [[-> H] | [[-> H] | [-> H]]];
    eexists; (split; [reflexivity |]).
  - symmetry. apply Q.max_r. lra.
  - symmetry. apply Q.max_r. lra.
  - symmetry. apply Q.max_l. lra.
Qed.

Lemma minimum_Fin (a b : Q) :
  exists m, Float64.minimum (Float64.Fin a) (Float64.Fin b) = Float64.Fin m /\
            (m == Qmin a b)%Q.
Proof.
  unfold Float64.minimum, Float64.leb.
  destruct (Qcompare_cases a b) as [[-> H] | [[-> H] | [-> H]]];
    eexists; (split; [reflexivity |]).
  - symmetry. apply Q.min_l. lra.
  - symmetry. apply Q.min_l. lra.
  - symmetry. apply Q.min_r. lra.
Qed.

(** ** Pension Credit amounts *)

Import PensionCreditAmounts.



Lemma maximum_spec (a b : Q) :
  exists m, Float64.maximum (Float64.Fin a) (Float64.Fin b) = Float64.Fin m /\
            (a <= m)%Q /\ (b <= m)%Q /\ ((m == a)%Q \/ (m == b)%Q).
Proof.
  unfold Float64.maximum, Float64.leb.
  destruct (Qcompare_cases a b) as [[-> H] | [[-> H] | [-> H]]];
    eexists; (split; [reflexivity |]); repeat split; try lra;
    first [left; reflexivity | right; reflexivity].
Qed.

Lemma minimum_spec (a b : Q) :
  exists m, Float64.minimum (Float64.Fin a) (Float64.Fin b) = Float64.Fin m /\
            (m <= a)%Q /\ (m <= b)%Q /\ ((m == a)%Q \/ (m == b)%Q).
Proof.
  unfold Float64.minimum, Float64.leb.
  destruct (Qcompare_cases a b) as [[-> H] | [[-> H] | [-> H]]];
    eexists; (split; [reflexivity |]); repeat split; try lra;
    first [left; reflexivity | right; reflexivity].
Qed.

(** Replaces the maxima and minima of finite values by fresh numbers with
    their defining inequalities, innermost first. *)
Ltac fin_arith :=
  unfold fin; cbn [Float64.sub Float64.add Float64.opp Float64.mul Float64.of_bool];
  repeat
    (match goal with
     | |- context [Float64.maximum (Float64.Fin ?a) (Float64.Fin ?b)] =>
         let m := fresh "m" in
         destruct (maximum_spec a b) as (m & -> & ? & ? & ?)
     | |- context [Float64.minimum (Float64.Fin ?a) (Float64.Fin ?b)] =>
         let m := fresh "m" in
         destruct (minimum_spec a b) as (m & -> & ? & ? & ?)
     end;
     cbn [Float64.sub Float64.add Float64.opp Float64.mul Float64.of_bool]).

Ltac unred := repeat match goal with
  | H : context [Qred _] |- _ => rewrite Qred_correct in H
  | |- context [Qred _] => rewrite Qred_correct
  end.

(** X17.  Savings Credit, benefit unit by benefit unit, for a withdrawal
    rate between 0 and 1: the amount is never negative, never exceeds the
    maximum [(1 - rate) * max(MG - threshold, 0)], and is 0 for a unit whose
    income does not exceed the yearly threshold and for a unit that is not
    eligible. *)
Theorem pension_credit_SC_bounds (b : BenUnit) (SC : Parameters)
  (rows : list SavingsUnit) (weeks wr : Q) :
  var b "savings_credit_applicable_income" = column sc_income rows ->
  var b "pension_credit_MG" = column sc_appropriate_amount rows ->
  var b "pension_credit_eligible" = flags sc_eligible rows ->
  income_threshold SC = column sc_threshold_weekly rows ->
  WEEKS_IN_YEAR SC = Float64.Fin weeks ->
  withdrawal_rate SC = Float64.Fin wr ->
  (0 <= wr)%Q -> (wr <= 1)%Q ->
  exists out,
    pension_credit_SC b SC = ret (FloatArray out) /\
    Forall2 (fun u v =>
               exists q cap, v = Float64.Fin q /\ (0 <= q)%Q /\ (q <= cap)%Q /\
                 (0 <= cap)%Q /\
                 ((cap == 0)%Q \/
                  (cap == (1 - wr)
                          * (sc_appropriate_amount u - sc_threshold_weekly u * weeks))%Q) /\
                 (sc_income u <= sc_threshold_weekly u * weeks -> q == 0)%Q /\
                 (sc_eligible u = false -> q == 0)%Q)
            rows out.
Proof.
  intros Hinc Happ Hel Hthr Hw Hwr H0 H1.
  unfold pension_credit_SC, subtract, np_maximum, np_minimum, multiply, zero.
  rewrite Hinc, Happ, Hel, Hthr, Hw, Hwr. vectorise.
  eexists. split; [reflexivity |]. apply Forall2_map_rows. intros u.
  fin_arith.
  unred. set (thr := (sc_threshold_weekly u * weeks)%Q) in *.
  rename m into over_i, m0 into over_a, m1 into excess, m2 into amount_A,
    m3 into amount.
  assert (Hk : (0 <= 1 + - wr)%Q) by lra.
  assert (Hcap : (0 <= (1 + - wr) * over_a)%Q)
    by (apply Qmult_le_0_compat; assumption).
  assert (Hkept : (0 <= (1 + - wr) * over_i)%Q)
    by (apply Qmult_le_0_compat; assumption).
  assert (HB : (0 <= excess * wr)%Q) by (apply Qmult_le_0_compat; assumption).
  assert (Hshape : ((1 + - wr) * over_a == 0
                    \/ (1 + - wr) * over_a
                       == (1 - wr) * (sc_appropriate_amount u - thr))%Q).
  { match goal with
    | H : (over_a == _)%Q \/ (over_a == 0)%Q |- _ =>
        destruct H as [E | E]; rewrite E; [right | left]; ring
    end. }
  assert (Hzero : (sc_income u <= thr -> (1 + - wr) * over_i == 0)%Q).
  { intros Hle. assert (E : (over_i == 0)%Q).
    { match goal with
      | H : (over_i == _)%Q \/ (over_i == 0)%Q |- _ => destruct H as [E | E]; lra
      end. }
    rewrite E. ring. }
  set (cap := ((1 + - wr) * over_a)%Q) in *.
  set (kept := ((1 + - wr) * over_i)%Q) in *.
  set (amount_B := (excess * wr)%Q) in *.
  assert (Hle : (amount <= cap)%Q).
  { match goal with
    | H : (amount == _)%Q \/ (amount == 0)%Q |- _ => destruct H as [E | E]; lra
    end. }
  destruct (sc_eligible u); cbn [Float64.of_bool]; eexists _, cap;
    (split; [reflexivity |]); unred;
    (split; [lra |]); (split; [lra |]); (split; [lra |]);
    (split; [exact Hshape |]).
  - split; [| discriminate]. intros Hi. specialize (Hzero Hi).
    match goal with
    | H : (amount == _)%Q \/ (amount == 0)%Q |- _ => destruct H as [E | E]; lra
    end.
  - split; intros _; lra.
Qed.


Import Examples3.

Lemma pension_credit_SC_bounds_witness :
  pension_credit_SC savings_benunits savings_parameters
  = ret (FloatArray (map Float64.Fin [520; 0; 0]%Q)).
Proof.
  destruct (pension_credit_SC_bounds savings_benunits savings_parameters
              savings_units 52 (4 # 10) eq_refl eq_refl eq_refl eq_refl eq_refl
              eq_refl ltac:(discriminate) ltac:(discriminate))
    as (out & Hout & _).
  rewrite Hout. vm_compute in Hout. injection Hout as <-. reflexivity.
Defined.

(** X18.  Where [would_claim_PC] is [True] (which is what its formula
    returns for every benefit unit), Pension Credit is the sum of its two
    components: the take-up factor changes no amount. *)
Theorem pension_credit_ignores_take_up (b : BenUnit) (components : list Q) :
  add b ["pension_credit_GC"; "pension_credit_SC"]
  = FloatArray (map Float64.Fin components) ->
  var b "would_claim_PC" = BoolArray (repeat true (length components)) ->
  exists out,
    pension_credit b = ret (FloatArray out) /\
    Forall2 (fun c v => feqv v (Float64.Fin c)) components out.
Proof.
  intros Hadd Hclaim. unfold pension_credit, multiply. rewrite Hadd, Hclaim.
  replace (repeat true (length components))
    with (map (fun _ : Q => true) components)
    by (clear; induction components as [| c l IH]; cbn; [| rewrite IH];
        reflexivity).
  rewrite (lift2_cols Float64.mul _ _ Float64.Fin
             (fun _ => Float64.of_bool true) components);
    [| reflexivity | exact (as_float_flags (fun _ : Q => true) components)].
  eexists. split; [reflexivity |]. apply Forall2_map_rows. intros c.
  cbn. rewrite Qred_correct. ring.
Qed.

Lemma pension_credit_ignores_take_up_witness :
  pension_credit
    (benunits [("would_claim_PC", BoolArray [true; true; true])]
              (FloatArray (map Float64.Fin [100; 0; 2505 # 10]%Q)))
  = ret (FloatArray (map Float64.Fin [100; 0; 501 # 2]%Q)).
Proof.
  destruct (pension_credit_ignores_take_up
              (benunits [("would_claim_PC", BoolArray [true; true; true])]
                        (FloatArray (map Float64.Fin [100; 0; 2505 # 10]%Q)))
              [100; 0; 2505 # 10]%Q eq_refl eq_refl) as (out & Hout & _).
  rewrite Hout. vm_compute in Hout. injection Hout as <-. reflexivity.
Defined.

(** ** Income tax reliefs *)

(** X19.  Relief for pension contributions, person by person: nothing from
    the age of 75; under 75 it is [min(pay, max(basic_amount,
    contributions))], so it never exceeds the pay, and a person who
    contributes nothing still gets the basic amount (or the whole pay if
    that is less). *)
Theorem pension_contributions_relief_amount (person : Relief.Person)
  (rows : list Contributor) (basic : Q) :
  person "pension_contributions" = column contributions rows ->
  person "employment_income" = column pay rows ->
  person "age" = column age rows ->
  exists out,
    Relief.pension_contributions_relief person (Float64.Fin basic)
    = ret (FloatArray out) /\
    Forall2 (fun u v =>
               exists q, v = Float64.Fin q /\
                 (75 <= age u -> q == 0)%Q /\
                 (age u < 75 ->
                  q == Qmin (pay u) (Qmax basic (contributions u)) /\
                  q <= pay u /\
                  (contributions u == 0 -> 0 <= basic -> q == Qmin (pay u) basic))%Q)
            rows out.
Proof.
  intros Hc Hp Ha. unfold Relief.pension_contributions_relief, less, np_maximum,
    np_minimum, multiply.
  rewrite Hc, Hp, Ha. vectorise.
  eexists. split; [reflexivity |]. apply Forall2_map_rows. intros u.
  unfold fin.
  destruct (maximum_Fin basic (contributions u)) as (m & -> & Hm).
  destruct (minimum_Fin (pay u) m) as (n & -> & Hn).
  unfold Float64.ltb.
  destruct (Qcompare_cases (age u) 75) as [[-> H] | [[-> H] | [-> H]]];
    cbn [Float64.of_bool Float64.mul]; eexists; (split; [reflexivity |]);
    rewrite Qred_correct.
  - split; [lra |]. intros _. rewrite Hn, Hm.
    split; [ring |]. split.
    + rewrite Qmult_1_r. apply Q.le_min_l.
    + intros Hz Hb. rewrite Qmult_1_r, Hz, (Q.max_l basic 0) by exact Hb.
      reflexivity.
  - split; [intros _; ring | lra].
  - split; [intros _; ring | lra].
Qed.

Lemma pension_contributions_relief_amount_witness :
  Relief.pension_contributions_relief contributing_persons (Float64.Fin 3600)
  = ret (FloatArray (map Float64.Fin [3600; 5000; 2000; 0]%Q)).
Proof.
  destruct (pension_contributions_relief_amount contributing_persons
              contributors 3600 eq_refl eq_refl eq_refl) as (out & Hout & _).
  rewrite Hout. vm_compute in Hout. injection Hout as <-. reflexivity.
Defined.

(** The shape shared by the [taxable_...] formulas. *)
Lemma floor_at_zero_rows (a b : ndarray) (rows : list Taxable) :
  a = column gross rows -> b = column deduction rows ->
  exists out,
    (do d <- lift (subtract a b) ; lift (np_maximum Relief.zero d))
    = ret (FloatArray out) /\
    Forall2 (fun u v =>
               exists q, v = Float64.Fin q /\ (0 <= q)%Q /\
                 (deduction u <= gross u -> q == gross u - deduction u)%Q /\
                 (gross u <= deduction u -> q == 0)%Q /\
                 (0 <= deduction u -> 0 <= gross u -> q <= gross u)%Q)
            rows out.
Proof.
  intros -> ->. unfold subtract, np_maximum, Relief.zero. vectorise.
  eexists. split; [reflexivity |].
  apply Forall2_map_rows. intros u. fin_arith. unred.
  eexists. split; [reflexivity |].
  match goal with
  | H : (_ == _)%Q \/ (_ == _)%Q |- _ => destruct H as [E | E]
  end; repeat split; intros; lra.
Qed.

(** X20.  Taxable employment income is [max(0, employment_income -
    employment_deductions)] person by person: never negative, equal to the
    difference when the income covers the deductions, 0 when it does not,
    and never above the income when neither is negative. *)
Theorem taxable_employment_income_floor (person : Relief.Person)
  (rows : list Taxable) :
  person "employment_income" = column gross rows ->
  person "employment_deductions" = column deduction rows ->
  exists out,
    Relief.taxable_employment_income person = ret (FloatArray out) /\
    Forall2 (fun u v =>
               exists q, v = Float64.Fin q /\ (0 <= q)%Q /\
                 (deduction u <= gross u -> q == gross u - deduction u)%Q /\
                 (gross u <= deduction u -> q == 0)%Q /\
                 (0 <= deduction u -> 0 <= gross u -> q <= gross u)%Q)
            rows out.
Proof. intros H1 H2. exact (floor_at_zero_rows _ _ rows H1 H2). Qed.

Lemma taxable_employment_income_floor_witness :
  Relief.taxable_employment_income taxable_persons
  = ret (FloatArray (map Float64.Fin [700; 0; 0]%Q)).
Proof.
  destruct (taxable_employment_income_floor taxable_persons taxables
              eq_refl eq_refl) as (out & Hout & _).
  rewrite Hout. vm_compute in Hout. injection Hout as <-. reflexivity.
Defined.

(** X21.  Taxable savings interest and taxable dividends have the same
    shape: each is the gross amount less what is set against it (ISA
    interest, deficiency relief), floored at zero, so a relief larger than
    the income leaves 0 and not a negative amount. *)
Theorem taxable_savings_and_dividends_floor (person : Relief.Person)
  (savings dividends : list Taxable) :
  person "savings_interest_income" = column gross savings ->
  person "ISA_interest_income" = column deduction savings ->
  person "dividend_income" = column gross dividends ->
  person "deficiency_relief" = column deduction dividends ->
  exists s d,
    Relief.taxable_savings_interest_income person = ret (FloatArray s) /\
    Relief.taxable_dividend_income person = ret (FloatArray d) /\
    Forall2 (fun u v => exists q, v = Float64.Fin q /\ (0 <= q)%Q /\
               (gross u <= deduction u -> q == 0)%Q /\
               (deduction u <= gross u -> q == gross u - deduction u)%Q)
            savings s /\
    Forall2 (fun u v => exists q, v = Float64.Fin q /\ (0 <= q)%Q /\
               (gross u <= deduction u -> q == 0)%Q /\
               (deduction u <= gross u -> q == gross u - deduction u)%Q)
            dividends d.
Proof.
  intros H1 H2 H3 H4.
  destruct (floor_at_zero_rows _ _ savings H1 H2) as (s & Es & Fs).
  destruct (floor_at_zero_rows _ _ dividends H3 H4) as (d & Ed & Fd).
  exists s, d. split; [exact Es |]. split; [exact Ed |].
  split; (eapply Forall2_impl; [eassumption |]);
    intros u v (q & -> & H0 & Hd & Hz & _); eauto 6.
Qed.

Lemma taxable_savings_and_dividends_floor_witness :
  Relief.taxable_savings_interest_income taxable_persons
  = ret (FloatArray (map Float64.Fin [700; 0; 0]%Q)) /\
  Relief.taxable_dividend_income taxable_persons
  = ret (FloatArray (map Float64.Fin [700; 0; 0]%Q)).
Proof.
  destruct (taxable_savings_and_dividends_floor taxable_persons taxables taxables
              eq_refl eq_refl eq_refl eq_refl) as (s & d & Es & Ed & _).
  rewrite Es, Ed. vm_compute in Es, Ed.
  injection Es as <-. injection Ed as <-. split; reflexivity.
Defined.

(** ** Basic income phase-outs *)

(** The individual phase-out, person by person. *)
Lemma bi_individual_phaseout_bounds_rows (i : BasicIncomeIndividual.Inputs)
  (rows : list Recipient) (t r : Q) :
  BasicIncomeIndividual.total_income i = column income rows ->
  BasicIncomeIndividual.bi_maximum i = column maximum rows ->
  BasicIncomeIndividual.threshold i = Float64.Fin t ->
  BasicIncomeIndividual.rate i = Float64.Fin r ->
  exists out,
    BasicIncomeIndividual.bi_individual_phaseout i = ret (FloatArray out) /\
    Forall2 (fun u v =>
               exists q, v = Float64.Fin q /\ (q <= maximum u)%Q /\
                 (0 <= r -> 0 <= maximum u -> 0 <= q)%Q /\
                 (income u <= t -> 0 <= maximum u -> q == 0)%Q /\
                 (0 <= r -> t <= income u ->
                  r * (income u - t) <= maximum u -> q == r * (income u - t))%Q)
            rows out.
Proof.
  intros Hi Hm Ht Hr. unfold BasicIncomeIndividual.bi_individual_phaseout,
    subtract, np_maximum, multiply, np_minimum.
  rewrite Hi, Hm, Ht, Hr. vectorise.
  eexists. split; [reflexivity |].
  apply Forall2_map_rows. intros u. fin_arith. unred.
  rename m into over, m0 into q.
  eexists. split; [reflexivity |].
  assert (Hover : (over == 0 /\ income u <= t \/ over == income u - t /\ t <= income u)%Q)
    by (destruct H1; [right | left]; split; lra).
  assert (Hq : (q == maximum u \/ q == r * over)%Q) by assumption.
  split; [assumption |]. split; [| split].
  - intros Hr0 Hm0.
    pose proof (Qmult_le_0_compat r over Hr0 ltac:(assumption)).
    destruct Hq; lra.
  - intros Hle Hm0.
    assert (E : (over == 0)%Q) by (destruct Hover as [[? ?] | [? ?]]; lra).
    assert (E' : (r * over == 0)%Q) by (rewrite E; ring).
    destruct Hq; lra.
  - intros Hr0 Hle Hcap.
    assert (E : (over == income u - t)%Q) by (destruct Hover as [[? ?] | [? ?]]; lra).
    assert (E' : (r * over == r * (income u - t))%Q) by (rewrite E; ring).
    destruct Hq; lra.
Qed.

(** X22.  The individual phase-out is [min(bi_maximum, rate * max(income -
    threshold, 0))] person by person: it never exceeds the person's
    maximum basic income, it is not negative when neither the rate nor the
    maximum is, and it is 0 for a person whose income does not exceed the
    threshold (when the maximum is not negative). *)
Theorem bi_individual_phaseout_bounds (i : BasicIncomeIndividual.Inputs)
  (rows : list Recipient) (t r : Q) :
  BasicIncomeIndividual.total_income i = column income rows ->
  BasicIncomeIndividual.bi_maximum i = column maximum rows ->
  BasicIncomeIndividual.threshold i = Float64.Fin t ->
  BasicIncomeIndividual.rate i = Float64.Fin r ->
  exists out,
    BasicIncomeIndividual.bi_individual_phaseout i = ret (FloatArray out) /\
    Forall2 (fun u v =>
               exists q, v = Float64.Fin q /\ (q <= maximum u)%Q /\
                 (0 <= r -> 0 <= maximum u -> 0 <= q)%Q /\
                 (income u <= t -> 0 <= maximum u -> q == 0)%Q /\
                 (0 <= r -> t <= income u ->
                  r * (income u - t) <= maximum u -> q == r * (income u - t))%Q)
            rows out.
Proof. exact (bi_individual_phaseout_bounds_rows i rows t r). Qed.

Lemma bi_individual_phaseout_bounds_witness :
  BasicIncomeIndividual.bi_individual_phaseout recipient_inputs
  = ret (FloatArray (map Float64.Fin [0; 5; 0; 0]%Q)).
Proof.
  destruct (bi_individual_phaseout_bounds recipient_inputs recipients
              150 (1 # 10) eq_refl eq_refl eq_refl eq_refl) as (out & Hout & _).
  rewrite Hout. vm_compute in Hout. injection Hout as <-. reflexivity.
Defined.




(** ** The round trip of [map_to] through the persons *)









(** ** The branches of [deriv] *)

(** X25.  Which derivatives [deriv] refuses: for two known variables on
    the three entities, it reaches the final [raise ValueError] exactly
    when the source variable [wrt] is not on persons and the target is on
    another entity; a person-level target with a group-level source, and a
    benefit-unit target with a household source, are both refused. *)
Theorem deriv_unable_iff (self : Microsimulation) (target wrt : string)
  (t w : VariableMeta) :
  variables (simulation self) !! target = Some t ->
  variables (simulation self) !! wrt = Some w ->
  In (entity_key t) ["person"; "benunit"; "household"] ->
  In (entity_key w) ["person"; "benunit"; "household"] ->
  (deriv_branch self target wrt = ret Unable
   <-> entity_key w <> "person" /\ entity_key t <> entity_key w) /\
  (deriv_branch self target wrt = ret GroupEntity
   <-> entity_key w = "person" /\ entity_key t <> "person").
Proof.
  intros Ht Hw It Iw. unfold deriv_branch, dict_get. rewrite Ht, Hw.
  rewrite !bind_ret_l.
  cbn in It, Iw.
  destruct It as [<- | [<- | [<- | []]]], Iw as [<- | [<- | [<- | []]]];
    cbn; split; split.
  all: try (intros [= ]). all: try (intros [? ?]; congruence).
  all: split; first [reflexivity | discriminate].
Qed.

Lemma deriv_unable_iff_witness :
  deriv_branch (microsim (weights_engine 0)) "benunit_weight" "household_weight"
  = ret Unable /\
  deriv_branch (microsim (weights_engine 0)) "person_weight" "benunit_weight"
  = ret Unable.
Proof.
  split.
  - apply (deriv_unable_iff (microsim (weights_engine 0)) "benunit_weight"
             "household_weight"
             {| value_type := float_t; entity_key := "benunit" |}
             {| value_type := float_t; entity_key := "household" |});
      [reflexivity | reflexivity | cbn; tauto | cbn; tauto |].
    split; discriminate.
  - apply (deriv_unable_iff (microsim (weights_engine 0)) "person_weight"
             "benunit_weight"
             {| value_type := float_t; entity_key := "person" |}
             {| value_type := float_t; entity_key := "benunit" |});
      [reflexivity | reflexivity | cbn; tauto | cbn; tauto |].
    split; discriminate.
Defined.

(** ** The means test of Guarantee Credit *)



(** ** Eligibility for Pension Credit *)

Lemma group_values_fmap {A B} (f : A -> B) (ids : list nat) (xs : list A) (k : nat) :
  group_values ids (map f xs) k = map f (group_values ids xs k).
Proof.
  unfold group_values. revert xs.
  induction ids as [| i ids IH]; intros [| x xs]; try reflexivity.
  cbn [combine map]. rewrite !filter_cons. cbn [fst].
  repeat case_decide; try contradiction; cbn [map snd]; [f_equal |]; apply IH.
Qed.

Lemma all_of_flags (bs : list bool) :
  forallb (fun x => negb (Float64.leb x (Float64.Fin 0) && Float64.geb x (Float64.Fin 0)))
          (map Float64.of_bool bs)
  = forallb id bs.
Proof.
  induction bs as [| [|] bs IH]; [reflexivity | |]; cbn [map forallb]; rewrite ?IH;
    reflexivity.
Qed.

Lemma sum_of_flags (bs : list bool) (a : Q) :
  exists q, fold_left Float64.add (map Float64.of_bool bs) (Float64.Fin a)
            = Float64.Fin q /\
            (existsb id bs = true -> a + 1 <= q)%Q /\
            (existsb id bs = false -> q == a)%Q /\ (a <= q)%Q.
Proof.
  revert a. induction bs as [| b bs IH]; intros a.
  - exists a. cbn. repeat split; try discriminate; lra.
  - cbn [map fold_left]. destruct b; cbn [Float64.of_bool Float64.add].
    + destruct (IH (Qred (a + 1))) as (q & -> & _ & _ & Hle).
      rewrite Qred_correct in Hle.
      exists q. cbn. repeat split; try discriminate; intros; lra.
    + destruct (IH (Qred (a + 0))) as (q & -> & H1 & H0 & Hle).
      rewrite Qred_correct in H1, H0, Hle.
      exists q. cbn [existsb id orb]. repeat split; intros.
      * specialize (H1 ltac:(assumption)). lra.
      * specialize (H0 ltac:(assumption)). lra.
      * lra.
Qed.

Lemma any_of_flags (bs : list bool) :
  Float64.gtb (fsum (map Float64.of_bool bs)) (Float64.Fin 0) = existsb id bs.
Proof.
  unfold fsum. destruct (sum_of_flags bs 0) as (q & -> & H1 & H0 & _).
  unfold Float64.gtb, Float64.ltb.
  destruct (existsb id bs).
  - specialize (H1 eq_refl).
    destruct (Qcompare_cases 0 q) as [[-> _] | [[_ H] | [_ H]]]; [reflexivity | lra ..].
  - specialize (H0 eq_refl).
    destruct (Qcompare_cases 0 q) as [[_ H] | [[-> _] | [-> _]]]; [lra | reflexivity ..].
Qed.

(** X27.  Eligibility for Pension Credit, benefit unit by benefit unit, in
    terms of the members: a unit is eligible when all its members are of
    State Pension age, or when one of them is and the unit receives
    housing benefit.  A unit without members counts as all of State
    Pension age and so is eligible. *)
Theorem pension_credit_eligible_members (b : BenUnit) (sp : list bool)
  (hb : list Q) :
  let ids := members_entity_id (population b) in
  count (population b) = nbins ids ->
  members b "is_SP_age" = BoolArray sp -> length sp = length ids ->
  var b "housing_benefit" = FloatArray (map Float64.Fin hb) ->
  length hb = count (population b) ->
  exists out,
    pension_credit_eligible b = ret (BoolArray out) /\
    forall k h, hb !! k = Some h ->
      let mine := group_values ids sp k in
      exists e, out !! k = Some e /\
        e = (forallb id mine || existsb id mine && Float64.gtb (Float64.Fin h) (Float64.Fin 0)) /\
        (mine = [] -> e = true) /\
        (existsb id mine = false -> mine <> [] -> e = false).
Proof.
  intros ids Hc Hsp Lsp Hhb Lhb. unfold pension_credit_eligible.
  rewrite Hsp, Hhb.
  unfold gp_all, gp_any, gp_sum, bincount_weights, check_array. fold ids.
  cbn [size as_float]. rewrite length_map, Lsp, Nat.eqb_refl, bind_lift_ret.
  unfold greater at 1. unfold compare_arrays, scalar. cbn [as_float].
  rewrite broadcast2_scalar_r, bind_lift_ret.
  unfold greater, zero, compare_arrays, scalar. cbn [as_float].
  rewrite broadcast2_scalar_r, bind_lift_ret.
  unfold bitwise_and. cbn [as_bool].
  rewrite broadcast2_same by (rewrite !length_map, length_seq; lia).
  rewrite bind_lift_ret. unfold bitwise_or. cbn [as_bool].
  rewrite broadcast2_same
    by (rewrite ?length_zip_with, ?length_map, ?length_seq; lia).
  eexists. split; [reflexivity |].
  intros k h Hh. set (mine := group_values ids sp k).
  assert (Hk : (k < nbins ids)%nat) by (apply lookup_lt_Some in Hh; lia).
  eexists. split; [| split; [reflexivity |]].
  - rewrite lookup_zip_with, list_lookup_fmap, Hc, lookup_seq_lt by exact Hk.
    change (0 + k)%nat with k. cbn [fmap option_fmap option_map mbind option_bind].
    rewrite lookup_zip_with, !list_lookup_fmap, lookup_seq_lt, Hh by exact Hk.
    change (0 + k)%nat with k. cbn [fmap option_fmap option_map mbind option_bind].
    rewrite !group_values_fmap, all_of_flags, any_of_flags. reflexivity.
  - split.
    + intros ->. reflexivity.
    + intros Hn Hne. rewrite Hn. cbn [andb]. rewrite orb_false_r.
      destruct mine as [| [|] rest]; [congruence | discriminate Hn | reflexivity].
Qed.

Lemma pension_credit_eligible_members_witness :
  pension_credit_eligible sparse_benunits = ret (BoolArray [true; true; false]).
Proof.
  destruct (pension_credit_eligible_members sparse_benunits
              [true; false; false; false] [100; 0; 0]%Q
              eq_refl eq_refl eq_refl eq_refl eq_refl) as (out & Hout & _).
  rewrite Hout. vm_compute in Hout. injection Hout as <-. reflexivity.
Defined.
